(** * Warm-transfer orchestration: agents, call sessions and the transfer protocol

    A shallow embedding of
      - [backend/src/models/schemas.py]          (enums, CallSession, Participant),
      - [backend/src/agents/agent_system.py]     (BaseAgent, AgentA, AgentB, AgentManager),
      - [backend/src/services/livekit_service.py] (LiveKitService),
      - [backend/src/main.py]                    (the call-management endpoints),
    followed by the properties of the session/agent orchestration.

    Python objects held in the two module-level singletons ([agent_manager],
    [livekit_service]) live in one [World]; an object reference is the key
    under which the object is stored.  Every [async def] is a computation
    in the state-and-exception monad [M]: an exception leaves the mutations
    made before it in place, exactly as in Python.  The external
    collaborators (room service, LLM provider, clock) are read from an
    [Env]; one [Env] describes what they answer during one request. *)

From Stdlib Require Import ZArith String Ascii List Bool.
From stdpp Require Import gmap strings list fin_maps.

Local Open Scope Z_scope.

(* ===================================================================== *)
(** ** models/schemas.py *)
(* ===================================================================== *)

Inductive AgentRole := AGENT_A | AGENT_B.

Inductive CallState := WAITING | CONNECTED | TRANSFERRING | TRANSFERRED | ENDED.

Module Participant.
Record t := mk {
  identity : string;
  name : string;
  role : option AgentRole;
  is_agent : bool;
  joined_at : string;
  room_sid : string
}.
End Participant.

Module CallSession.
Record t := mk {
  session_id : string;
  caller_identity : string;
  agent_a_identity : option string;
  agent_b_identity : option string;
  original_room_sid : string;
  transfer_room_sid : option string;
  state : CallState;
  call_summary : option string;
  transfer_reason : option string;
  created_at : string;
  participants : list Participant.t
}.

(** Attribute assignments [session.f = v]. *)
Definition set_agent_b_identity (v : option string) (s : t) : t :=
  mk (session_id s) (caller_identity s) (agent_a_identity s) v
     (original_room_sid s) (transfer_room_sid s) (state s) (call_summary s)
     (transfer_reason s) (created_at s) (participants s).
Definition set_transfer_room_sid (v : option string) (s : t) : t :=
  mk (session_id s) (caller_identity s) (agent_a_identity s) (agent_b_identity s)
     (original_room_sid s) v (state s) (call_summary s)
     (transfer_reason s) (created_at s) (participants s).
Definition set_state (v : CallState) (s : t) : t :=
  mk (session_id s) (caller_identity s) (agent_a_identity s) (agent_b_identity s)
     (original_room_sid s) (transfer_room_sid s) v (call_summary s)
     (transfer_reason s) (created_at s) (participants s).
Definition set_call_summary (v : option string) (s : t) : t :=
  mk (session_id s) (caller_identity s) (agent_a_identity s) (agent_b_identity s)
     (original_room_sid s) (transfer_room_sid s) (state s) v
     (transfer_reason s) (created_at s) (participants s).
Definition set_transfer_reason (v : option string) (s : t) : t :=
  mk (session_id s) (caller_identity s) (agent_a_identity s) (agent_b_identity s)
     (original_room_sid s) (transfer_room_sid s) (state s) (call_summary s)
     v (created_at s) (participants s).
Definition set_participants (v : list Participant.t) (s : t) : t :=
  mk (session_id s) (caller_identity s) (agent_a_identity s) (agent_b_identity s)
     (original_room_sid s) (transfer_room_sid s) (state s) (call_summary s)
     (transfer_reason s) (created_at s) v.
End CallSession.

Module TransferRequest.
Record t := mk {
  session_id : string;
  agent_a_identity : string;
  agent_b_identity : string;
  reason : option string
}.
End TransferRequest.

(* ===================================================================== *)
(** ** agents/agent_system.py: the agent objects *)
(* ===================================================================== *)

Inductive AgentState := IDLE | IN_CALL | IN_TRANSFER | OFFLINE.

(** One entry of [conversation_history]. *)
Module Message.
Record t := mk { speaker : string; content : string; timestamp : string }.
End Message.

(** A value of [AgentA.transfer_requests]. *)
Module TransferInfo.
Record t := mk {
  agent_b_identity : string;
  reason : string;
  call_summary : string;
  transfer_room_sid : string;
  initiated_at : string
}.
End TransferInfo.

(** [AgentB.transfer_context]. *)
Module TransferContext.
Record t := mk {
  explanation : string;
  call_summary : string;
  received_at : string
}.
End TransferContext.

(** The subclass of an agent object with the attributes its [__init__] adds. *)
Inductive AgentKind :=
| AgentA (transfer_requests : gmap string TransferInfo.t)
| AgentB (specialty : string) (transfer_context : option TransferContext.t).

Module Agent.
Record t := mk {
  identity : string;
  name : string;
  state : AgentState;
  current_session_id : option string;
  conversation_history : list Message.t;
  kind : AgentKind
}.

(** [BaseAgent.role] is fixed by the subclass constructor. *)
Definition role (a : t) : AgentRole :=
  match kind a with AgentA _ => AGENT_A | AgentB _ _ => AGENT_B end.

Definition set_state (v : AgentState) (a : t) : t :=
  mk (identity a) (name a) v (current_session_id a) (conversation_history a) (kind a).
Definition set_current_session_id (v : option string) (a : t) : t :=
  mk (identity a) (name a) (state a) v (conversation_history a) (kind a).
Definition set_conversation_history (v : list Message.t) (a : t) : t :=
  mk (identity a) (name a) (state a) (current_session_id a) v (kind a).
Definition set_kind (v : AgentKind) (a : t) : t :=
  mk (identity a) (name a) (state a) (current_session_id a) (conversation_history a) v.
End Agent.

(** [AgentA(identity, name)] and [AgentB(identity, name, specialty)]. *)
Definition new_AgentA (identity name : string) : Agent.t :=
  Agent.mk identity name IDLE None [] (AgentA ∅).

Definition new_AgentB (identity name specialty : string) : Agent.t :=
  Agent.mk identity name IDLE None [] (AgentB specialty None).

(* ===================================================================== *)
(** ** Python values: truthiness, slices, insertion-ordered dicts *)
(* ===================================================================== *)

(** [bool(s)] for a [str]. *)
Definition truthy (s : string) : bool := negb (String.eqb s "").

(** [bool(o)] for an [Optional[str]]: [None] and the empty string are falsy. *)
Definition truthy_opt (o : option string) : bool :=
  match o with Some s => truthy s | None => false end.

(** [o or d]. *)
Definition or_default (o : option string) (d : string) : string :=
  match o with Some s => if truthy s then s else d | None => d end.

(** [s[-n:]]. *)
Definition last_chars (n : nat) (s : string) : string :=
  string_of_list_ascii (List.skipn (String.length s - n)%nat (list_ascii_of_string s)).

(** [needle in hay]. *)
Definition contains (needle hay : string) : bool :=
  match String.index 0 needle hay with Some _ => true | None => false end.

(** [s.lower()], on ASCII letters. *)
Definition lower_ascii (c : ascii) : ascii :=
  let n := nat_of_ascii c in
  if ((65 <=? n) && (n <=? 90))%nat then ascii_of_nat (n + 32) else c.

Fixpoint lower (s : string) : string :=
  match s with
  | EmptyString => EmptyString
  | String c r => String (lower_ascii c) (lower r)
  end.

(** A [dict] whose iteration order matters: keys in insertion order;
    assigning to a key that is present keeps its position. *)
Section odict.
Context {V : Type}.

Fixpoint od_get (k : string) (d : list (string * V)) : option V :=
  match d with
  | [] => None
  | (k', v) :: r => if decide (k = k') then Some v else od_get k r
  end.

Fixpoint od_set (k : string) (v : V) (d : list (string * V)) : list (string * V) :=
  match d with
  | [] => [(k, v)]
  | (k', v') :: r => if decide (k = k') then (k, v) :: r else (k', v') :: od_set k v r
  end.

(** In-place mutation of the object stored under [k]. *)
Fixpoint od_alter (f : V -> V) (k : string) (d : list (string * V)) : list (string * V) :=
  match d with
  | [] => []
  | (k', v) :: r => if decide (k = k') then (k', f v) :: r else (k', v) :: od_alter f k r
  end.

Definition od_values (d : list (string * V)) : list V := List.map snd d.
End odict.

(* ===================================================================== *)
(** ** The world, the collaborators, and the monad of requests *)
(* ===================================================================== *)

(** [api.VideoGrants]: the arguments the constructor call passes are
    plain values; the attributes it leaves out stay unset ([None]) until
    assigned. *)
Module VideoGrants.
Record t := mk {
  room_join : bool;
  room : string;
  can_publish : bool;
  can_subscribe : bool;
  can_publish_data : bool;
  can_update_own_metadata : bool;
  can_publish_sources : option (list string);
  hidden : option bool;
  recorder : option bool
}.
End VideoGrants.

(** What [token.to_jwt()] signs: the identity and the grants.  The
    signature itself (api key and secret) is not modelled. *)
Module AccessToken.
Record t := mk { identity : string; grants : VideoGrants.t }.
End AccessToken.

(** A room that the room service was made to create. *)
Module Room.
Record t := mk { name : string; max_participants : Z; sid : string }.
End Room.

Record World := mkWorld {
  agents : list (string * Agent.t);            (* agent_manager.agents *)
  agent_assignments : gmap string string;      (* agent_manager.agent_assignments *)
  active_sessions : gmap string CallSession.t; (* livekit_service.active_sessions *)
  rooms : list Room.t                          (* rooms created on the room service, oldest first *)
}.

Definition set_agents (f : list (string * Agent.t) -> list (string * Agent.t)) (w : World) : World :=
  mkWorld (f (agents w)) (agent_assignments w) (active_sessions w) (rooms w).
Definition set_agent_assignments (f : gmap string string -> gmap string string) (w : World) : World :=
  mkWorld (agents w) (f (agent_assignments w)) (active_sessions w) (rooms w).
Definition set_active_sessions (f : gmap string CallSession.t -> gmap string CallSession.t) (w : World) : World :=
  mkWorld (agents w) (agent_assignments w) (f (active_sessions w)) (rooms w).
Definition set_rooms (f : list Room.t -> list Room.t) (w : World) : World :=
  mkWorld (agents w) (agent_assignments w) (active_sessions w) (f (rooms w)).

Definition empty_world : World := mkWorld [] ∅ ∅ [].

(** The collaborators during one request.  [None] stands for the call
    raising.  The clock is read once per request. *)
Record Env := mkEnv {
  now_isoformat : string;                      (* datetime.now().isoformat() *)
  now_date_time : string;                      (* strftime('%Y%m%d_%H%M%S') *)
  now_time : string;                           (* strftime('%H%M%S') *)
  settings_livekit_url : string;               (* settings.livekit_url *)
  room_service_create_room : string -> Z -> option string;   (* room name, max_participants -> room.sid *)
  llm_generate_call_summary : list Message.t -> option string;
  llm_generate_transfer_explanation : string -> string -> string -> option string
}.

(** The JSON bodies the endpoints of [main.py] return. *)
Module CreateCallResponse.
Record t := mk { session_id : string; room_name : string; agent_a_identity : string }.
End CreateCallResponse.

Module JoinCallResponse.
Record t := mk { access_token : AccessToken.t; livekit_url : string; room_name : string }.
End JoinCallResponse.

Module InitiateTransferResponse.
Record t := mk {
  transfer_room_sid : string;
  tokens : list (string * AccessToken.t);
  agent_b_identity : string
}.
End InitiateTransferResponse.

Module ExplainTransferResponse.
Record t := mk { explanation : string; call_summary : option string }.
End ExplainTransferResponse.

Module CompleteTransferResponse.
Record t := mk { success : bool; final_room_sid : string; message : string }.
End CompleteTransferResponse.

Inductive exn :=
| HTTPException (status_code : Z) (detail : string)
| HTTPExceptionStr (status_code : Z) (cause : exn)   (* detail = str(cause) *)
| ValueError (msg : string)
| AttributeError (attr : string)
| UpstreamError (what : string).

Inductive result (A : Type) :=
| Ok (a : A)
| Raise (e : exn).
Arguments Ok {A} a.
Arguments Raise {A} e.

Definition M (A : Type) : Type := World -> result A * World.

Definition ret {A} (a : A) : M A := fun w => (Ok a, w).
Definition raise {A} (e : exn) : M A := fun w => (Raise e, w).
Definition bind {A B} (m : M A) (k : A -> M B) : M B :=
  fun w => match m w with
           | (Ok a, w') => k a w'
           | (Raise e, w') => (Raise e, w')
           end.
Definition try_except {A} (m : M A) (handler : exn -> M A) : M A :=
  fun w => match m w with
           | (Ok a, w') => (Ok a, w')
           | (Raise e, w') => handler e w'
           end.
Definition gets {A} (f : World -> A) : M A := fun w => (Ok (f w), w).
Definition modify (f : World -> World) : M unit := fun w => (Ok tt, f w).

Notation "'do' x <- m ; k" := (bind m (fun x => k))
  (at level 10, x name, m at level 100, k at level 200).
Notation "'do_' m ; k" := (bind m (fun _ => k))
  (at level 10, m at level 100, k at level 200).

Instance AgentState_eq_dec : EqDecision AgentState.
Proof. solve_decision. Defined.
Instance CallState_eq_dec : EqDecision CallState.
Proof. solve_decision. Defined.
Instance AgentRole_eq_dec : EqDecision AgentRole.
Proof. solve_decision. Defined.

(** The object stored under [self]; calling a method on a missing
    object ([None]) raises. *)
Definition deref (self : string) : M Agent.t :=
  fun w => match od_get self (agents w) with
           | Some a => (Ok a, w)
           | None => (Raise (AttributeError "NoneType"), w)
           end.

(** Mutation of the object stored under [self]. *)
Definition update_self (self : string) (f : Agent.t -> Agent.t) : M unit :=
  modify (set_agents (od_alter f self)).

(** Mutation of [active_sessions[session_id]]. *)
Definition update_session (session_id : string) (f : CallSession.t -> CallSession.t) : M unit :=
  modify (set_active_sessions (alter f session_id)).

Definition is_AgentA (a : Agent.t) : bool :=
  match Agent.kind a with AgentA _ => true | AgentB _ _ => false end.
Definition is_AgentB (a : Agent.t) : bool :=
  match Agent.kind a with AgentA _ => false | AgentB _ _ => true end.

(** Method lookup: [obj.meth] exists only on the class that defines it. *)
Definition deref_AgentA (self meth : string) : M Agent.t :=
  do a <- deref self;
  if is_AgentA a then ret a else raise (AttributeError meth).
Definition deref_AgentB (self meth : string) : M Agent.t :=
  do a <- deref self;
  if is_AgentB a then ret a else raise (AttributeError meth).

Section WithEnv.
Context (env : Env).

(* ------------------------------------------------------------------- *)
(** *** services/livekit_service.py *)
(* ------------------------------------------------------------------- *)

(** [LiveKitService.create_room]: the room service either returns the
    new room or raises, and the exception is re-raised. *)
Definition create_room (room_name : string) (max_participants : Z) : M string :=
  fun w => match room_service_create_room env room_name max_participants with
           | Some sid => (Ok sid, set_rooms (fun r => r ++ [Room.mk room_name max_participants sid]) w)
           | None => (Raise (UpstreamError "create_room"), w)
           end.

(** [LiveKitService.generate_access_token]. *)
Definition generate_access_token (identity room_name : string)
    (is_agent can_publish can_subscribe : bool) : AccessToken.t :=
  let grants :=
    VideoGrants.mk true room_name can_publish can_subscribe true true None None None in
  let grants :=
    if is_agent
    then VideoGrants.mk (VideoGrants.room_join grants) (VideoGrants.room grants)
           (VideoGrants.can_publish grants) (VideoGrants.can_subscribe grants)
           (VideoGrants.can_publish_data grants) (VideoGrants.can_update_own_metadata grants)
           (Some ["camera"; "microphone"; "screen_share"]) (Some false) (Some true)
    else grants in
  AccessToken.mk identity grants.

(** [LiveKitService.create_call_session]. *)
Definition create_call_session (caller_identity agent_a_identity : string) : M CallSession.t :=
  let session_id := "session_" +:+ now_date_time env +:+ "_" +:+ caller_identity in
  let room_name := "call_" +:+ session_id in
  do room_sid <- create_room room_name 3;
  let session :=
    CallSession.mk session_id caller_identity (Some agent_a_identity) None room_sid None
      WAITING None None (now_isoformat env) [] in
  do_ modify (set_active_sessions (insert session_id session));
  ret session.

(** [LiveKitService.join_participant]. *)
Definition join_participant (session_id identity : string) (role : option AgentRole)
    : M AccessToken.t :=
  do found <- gets (fun w => active_sessions w !! session_id);
  match found with
  | None => raise (ValueError ("Session " +:+ session_id +:+ " not found"))
  | Some session =>
      let room_name := "call_" +:+ session_id in
      let is_agent := bool_decide (role <> None) in
      let token := generate_access_token identity room_name is_agent true true in
      let participant :=
        Participant.mk identity identity role is_agent (now_isoformat env)
          (CallSession.original_room_sid session) in
      do_ update_session session_id
            (fun s => CallSession.set_participants (CallSession.participants s ++ [participant]) s);
      do_ (if bool_decide (role = Some AGENT_A) && bool_decide (CallSession.state session = WAITING)
           then update_session session_id (CallSession.set_state CONNECTED)
           else ret tt);
      ret token
  end.

(** [LiveKitService.initiate_warm_transfer]. *)
Definition initiate_warm_transfer (session_id agent_b_identity : string)
    (transfer_reason : option string) : M string :=
  do found <- gets (fun w => active_sessions w !! session_id);
  match found with
  | None => raise (ValueError ("Session " +:+ session_id +:+ " not found"))
  | Some _ =>
      do_ update_session session_id (CallSession.set_agent_b_identity (Some agent_b_identity));
      do_ update_session session_id (CallSession.set_transfer_reason transfer_reason);
      do_ update_session session_id (CallSession.set_state TRANSFERRING);
      let transfer_room_name := "transfer_" +:+ session_id +:+ "_" +:+ now_time env in
      do transfer_room_sid <- create_room transfer_room_name 2;
      do_ update_session session_id (CallSession.set_transfer_room_sid (Some transfer_room_sid));
      ret transfer_room_sid
  end.

(** [LiveKitService.get_transfer_room_tokens]; the returned [dict] is
    listed in insertion order. *)
Definition get_transfer_room_tokens (session_id : string) : M (list (string * AccessToken.t)) :=
  do found <- gets (fun w => active_sessions w !! session_id);
  match found with
  | None => raise (ValueError ("Session " +:+ session_id +:+ " not found"))
  | Some session =>
      match CallSession.transfer_room_sid session with
      | Some room_sid =>
          if truthy room_sid then
            let transfer_room_name :=
              "transfer_" +:+ session_id +:+ "_" +:+ last_chars 6 room_sid in
            let tokens := [] in
            let tokens :=
              match CallSession.agent_a_identity session with
              | Some a =>
                  if truthy a
                  then od_set "agent_a" (generate_access_token a transfer_room_name true true true) tokens
                  else tokens
              | None => tokens
              end in
            let tokens :=
              match CallSession.agent_b_identity session with
              | Some b =>
                  if truthy b
                  then od_set "agent_b" (generate_access_token b transfer_room_name true true true) tokens
                  else tokens
              | None => tokens
              end in
            ret tokens
          else raise (ValueError ("No transfer room for session " +:+ session_id))
      | None => raise (ValueError ("No transfer room for session " +:+ session_id))
      end
  end.

(** [LiveKitService.complete_transfer].  The two tokens are generated
    and dropped. *)
Definition livekit_complete_transfer (session_id : string) : M string :=
  do found <- gets (fun w => active_sessions w !! session_id);
  match found with
  | None => raise (ValueError ("Session " +:+ session_id +:+ " not found"))
  | Some session =>
      if truthy_opt (CallSession.agent_b_identity session) then
        let final_room_name := "final_" +:+ session_id in
        do final_room_sid <- create_room final_room_name 2;
        let caller_token :=
          generate_access_token (CallSession.caller_identity session) final_room_name
            false true true in
        let agent_b_token :=
          generate_access_token (default "" (CallSession.agent_b_identity session))
            final_room_name true true true in
        do_ update_session session_id (CallSession.set_state TRANSFERRED);
        ret final_room_sid
      else raise (ValueError ("No Agent B assigned for session " +:+ session_id))
  end.

(** [LiveKitService.end_session]. *)
Definition end_session (session_id : string) : M unit :=
  do found <- gets (fun w => active_sessions w !! session_id);
  match found with
  | Some _ => update_session session_id (CallSession.set_state ENDED)
  | None => ret tt
  end.

(** [LiveKitService.get_session]. *)
Definition get_session (session_id : string) : M (option CallSession.t) :=
  gets (fun w => active_sessions w !! session_id).

(* ------------------------------------------------------------------- *)
(** *** agents/agent_system.py: methods *)
(* ------------------------------------------------------------------- *)

(** [BaseAgent.add_to_conversation], on the object itself. *)
Definition add_to_conversation (speaker content : string) (a : Agent.t) : Agent.t :=
  Agent.set_conversation_history
    (Agent.conversation_history a ++ [Message.mk speaker content (now_isoformat env)]) a.

(** [BaseAgent.generate_call_summary]: [None] on an empty history and
    when the provider raises. *)
Definition generate_call_summary (a : Agent.t) : option string :=
  match Agent.conversation_history a with
  | [] => None
  | _ :: _ => llm_generate_call_summary env (Agent.conversation_history a)
  end.

Definition greeting : string := "Hello! This is Agent A. How can I help you today?".

(** [AgentA.handle_incoming_call]. *)
Definition AgentA_handle_incoming_call (session_id : string) (a : Agent.t) : Agent.t :=
  let a := Agent.set_state IN_CALL a in
  let a := Agent.set_current_session_id (Some session_id) a in
  let a := Agent.set_conversation_history [] a in
  add_to_conversation "Agent A" greeting a.

(** [AgentB.handle_incoming_call]. *)
Definition AgentB_handle_incoming_call (session_id : string) (a : Agent.t) : Agent.t :=
  let a := Agent.set_state IN_CALL a in
  Agent.set_current_session_id (Some session_id) a.

(** [agent.handle_incoming_call(session_id)], dispatched on the class. *)
Definition handle_incoming_call (self session_id : string) : M bool :=
  do a <- deref self;
  do_ update_self self
        (if is_AgentA a then AgentA_handle_incoming_call session_id
         else AgentB_handle_incoming_call session_id);
  ret true.

(** [AgentA.process_conversation]. *)
Definition AgentA_process_conversation (message speaker : string) (a : Agent.t)
    : Agent.t * option string :=
  let a := add_to_conversation speaker message a in
  let response :=
    if contains "billing" (lower message) || contains "payment" (lower message)
    then "I can see this is related to billing. Let me transfer you to our billing specialist who can help you better."
    else if contains "technical" (lower message) || contains "not working" (lower message)
    then "This sounds like a technical issue. I'll connect you with our technical support team."
    else "I understand. Let me see how I can help you with that." in
  (add_to_conversation "Agent A" response a, Some response).

(** [AgentB.process_conversation]. *)
Definition AgentB_process_conversation (specialty message speaker : string) (a : Agent.t)
    : Agent.t * option string :=
  let a := add_to_conversation speaker message a in
  let response :=
    if String.eqb specialty "Billing" then
      if contains "payment" (lower message) || contains "billing" (lower message)
      then "I can help you with that billing issue. Let me pull up your account details."
      else "I'm here to help with any billing or payment related questions you might have."
    else if String.eqb specialty "Technical" then
      if contains "not working" (lower message) || contains "broken" (lower message)
      then "I understand the technical issue you're experiencing. Let me troubleshoot this with you."
      else "I'm here to provide technical support and resolve any technical issues."
    else "I'm here to provide specialized assistance. How can I help you today?" in
  (add_to_conversation "Agent B" response a, Some response).

(** [agent.process_conversation(message, speaker)], dispatched on the class. *)
Definition process_conversation (self message speaker : string) : M (option string) :=
  do a <- deref self;
  let '(a', response) :=
    match Agent.kind a with
    | AgentA _ => AgentA_process_conversation message speaker a
    | AgentB specialty _ => AgentB_process_conversation specialty message speaker a
    end in
  do_ update_self self (fun _ => a');
  ret response.

(** [self.transfer_requests[session_id] = info]. *)
Definition store_transfer_request (session_id : string) (info : TransferInfo.t) (a : Agent.t)
    : Agent.t :=
  match Agent.kind a with
  | AgentA transfer_requests => Agent.set_kind (AgentA (<[session_id := info]> transfer_requests)) a
  | AgentB _ _ => a
  end.

(** [AgentA.transfer_requests] of an object. *)
Definition transfer_requests_of (a : Agent.t) : gmap string TransferInfo.t :=
  match Agent.kind a with
  | AgentA transfer_requests => transfer_requests
  | AgentB _ _ => ∅
  end.

(** [AgentA.initiate_transfer]. *)
Definition AgentA_initiate_transfer (self agent_b_identity reason : string)
    : M (option string) :=
  do a <- deref_AgentA self "initiate_transfer";
  match Agent.current_session_id a with
  | None => ret None
  | Some current_session_id =>
      if truthy current_session_id then
        try_except
          (do_ update_self self (Agent.set_state IN_TRANSFER);
           let call_summary :=
             or_default (generate_call_summary a)
               "Customer inquiry requiring specialized assistance" in
           do transfer_room_sid <-
             initiate_warm_transfer current_session_id agent_b_identity (Some reason);
           do_ update_self self
                 (store_transfer_request current_session_id
                    (TransferInfo.mk agent_b_identity reason call_summary transfer_room_sid
                       (now_isoformat env)));
           ret (Some transfer_room_sid))
          (fun _ =>
             do_ update_self self (Agent.set_state IN_CALL);
             ret None)
      else ret None
  end.

(** [AgentA.explain_transfer_to_agent_b]. *)
Definition AgentA_explain_transfer_to_agent_b (self agent_b_identity : string)
    : M (option string) :=
  do a <- deref_AgentA self "explain_transfer_to_agent_b";
  match Agent.current_session_id a with
  | None => ret None
  | Some current_session_id =>
      match transfer_requests_of a !! current_session_id with
      | None => ret None
      | Some transfer_info =>
          match llm_generate_transfer_explanation env
                  (TransferInfo.call_summary transfer_info)
                  (TransferInfo.reason transfer_info)
                  ("Agent B (" +:+ agent_b_identity +:+ ")") with
          | Some explanation =>
              do_ update_self self
                    (add_to_conversation "Agent A"
                       ("[Transfer explanation to " +:+ agent_b_identity +:+ "]: " +:+ explanation));
              ret (Some explanation)
          | None => ret None
          end
      end
  end.

(** [AgentA.complete_transfer]. *)
Definition AgentA_complete_transfer (self : string) : M bool :=
  do a <- deref_AgentA self "complete_transfer";
  match Agent.current_session_id a with
  | None => ret false
  | Some current_session_id =>
      if truthy current_session_id then
        do session <- get_session current_session_id;
        do_ (match session with
             | Some _ =>
                 update_session current_session_id
                   (CallSession.set_call_summary (generate_call_summary a))
             | None => ret tt
             end);
        do_ update_self self (Agent.set_state IDLE);
        do_ update_self self (Agent.set_current_session_id None);
        ret true
      else ret false
  end.

(** The acknowledgment line of [AgentB.receive_transfer_context]. *)
Definition acknowledgment (name specialty : string) : string :=
  "Thank you Agent A. I'll take care of this customer. Hello, I'm " +:+ name +:+ " from "
    +:+ specialty +:+ ". I've been briefed on your situation and I'm here to help.".

(** [AgentB.receive_transfer_context]. *)
Definition AgentB_receive_transfer_context (self explanation call_summary : string) : M unit :=
  do a <- deref_AgentB self "receive_transfer_context";
  match Agent.kind a with
  | AgentA _ => ret tt
  | AgentB specialty _ =>
      do_ update_self self
            (Agent.set_kind
               (AgentB specialty
                  (Some (TransferContext.mk explanation call_summary (now_isoformat env)))));
      do_ update_self self (add_to_conversation "Agent A" ("[Transfer]: " +:+ explanation));
      do_ update_self self
            (add_to_conversation "Agent B" (acknowledgment (Agent.name a) specialty));
      ret tt
  end.

(** [AgentB.end_call].  [end_session] cannot raise, so the handler of
    the [try] is never entered. *)
Definition AgentB_end_call (self : string) : M bool :=
  do a <- deref_AgentB self "end_call";
  match Agent.kind a with
  | AgentA _ => ret false
  | AgentB specialty _ =>
      if truthy_opt (Agent.current_session_id a) then
        let final_summary := generate_call_summary a in
        do_ end_session (default "" (Agent.current_session_id a));
        do_ update_self self (Agent.set_state IDLE);
        do_ update_self self (Agent.set_current_session_id None);
        do_ update_self self (Agent.set_kind (AgentB specialty None));
        ret true
      else ret false
  end.

(* ------------------------------------------------------------------- *)
(** *** agents/agent_system.py: AgentManager *)
(* ------------------------------------------------------------------- *)

(** [AgentManager.register_agent]. *)
Definition register_agent (a : Agent.t) : M unit :=
  modify (set_agents (od_set (Agent.identity a) a)).

(** [AgentManager.get_agent]. *)
Definition get_agent (identity : string) : M (option Agent.t) :=
  gets (fun w => od_get identity (agents w)).

(** The loop [for agent in self.agents.values(): if test(agent): return agent]. *)
Fixpoint first_agent (test : Agent.t -> bool) (d : list (string * Agent.t)) : option Agent.t :=
  match d with
  | [] => None
  | (_, agent) :: r => if test agent then Some agent else first_agent test r
  end.

Definition available_agent_a (agent : Agent.t) : bool :=
  is_AgentA agent && bool_decide (Agent.state agent = IDLE).

Definition available_agent_b (specialty : option string) (agent : Agent.t) : bool :=
  match Agent.kind agent with
  | AgentA _ => false
  | AgentB agent_specialty _ =>
      bool_decide (Agent.state agent = IDLE) &&
      match specialty with
      | None => true
      | Some wanted => String.eqb agent_specialty wanted
      end
  end.

(** [AgentManager.get_available_agent_a]. *)
Definition get_available_agent_a : M (option Agent.t) :=
  gets (fun w => first_agent available_agent_a (agents w)).

(** [AgentManager.get_available_agent_b]. *)
Definition get_available_agent_b (specialty : option string) : M (option Agent.t) :=
  gets (fun w => first_agent (available_agent_b specialty) (agents w)).

(** [AgentManager.assign_agent_to_session]. *)
Definition assign_agent_to_session (session_id agent_identity : string) : M unit :=
  modify (set_agent_assignments (insert session_id agent_identity)).

(** [AgentManager.get_session_agent]. *)
Definition get_session_agent (session_id : string) : M (option Agent.t) :=
  do agent_identity <- gets (fun w => agent_assignments w !! session_id);
  match agent_identity with
  | Some i => if truthy i then get_agent i else ret None
  | None => ret None
  end.

(** [AgentManager.create_default_agents]. *)
Definition create_default_agents : M unit :=
  do_ register_agent (new_AgentA "agent_a_001" "Sarah (Agent A)");
  do_ register_agent (new_AgentB "agent_b_billing" "Mike (Billing)" "Billing");
  do_ register_agent (new_AgentB "agent_b_technical" "Lisa (Technical)" "Technical");
  do_ register_agent (new_AgentB "agent_b_general" "John (General)" "General Support");
  ret tt.

(* ------------------------------------------------------------------- *)
(** *** main.py: the call-management endpoints *)
(* ------------------------------------------------------------------- *)

(** The frame every endpoint has:
    [try: ... except Exception as e: raise HTTPException(500, str(e))].
    An [HTTPException] raised inside the [try] is caught as well. *)
Definition endpoint {A} (body : M A) : M A :=
  try_except body (fun e => raise (HTTPExceptionStr 500 e)).

(** [AgentRole(value)]. *)
Definition AgentRole_of_value (value : string) : M AgentRole :=
  if String.eqb value "agent_a" then ret AGENT_A
  else if String.eqb value "agent_b" then ret AGENT_B
  else raise (ValueError (value +:+ " is not a valid AgentRole")).

(** [POST /api/calls/create]. *)
Definition create_call (caller_identity : string) (agent_a_identity : option string)
    : M CreateCallResponse.t :=
  endpoint
    (do agent_a_identity <-
       (if truthy_opt agent_a_identity then ret (default "" agent_a_identity)
        else
          do agent_a <- get_available_agent_a;
          match agent_a with
          | None => raise (HTTPException 503 "No Agent A available")
          | Some agent_a => ret (Agent.identity agent_a)
          end);
     do session <- create_call_session caller_identity agent_a_identity;
     do_ assign_agent_to_session (CallSession.session_id session) agent_a_identity;
     do agent_a <- get_agent agent_a_identity;
     do_ (match agent_a with
          | Some _ =>
              do_ handle_incoming_call agent_a_identity (CallSession.session_id session);
              ret tt
          | None => ret tt
          end);
     ret (CreateCallResponse.mk (CallSession.session_id session)
            ("call_" +:+ CallSession.session_id session) agent_a_identity)).

(** [POST /api/calls/{session_id}/join]. *)
Definition join_call (session_id identity : string) (role : option string)
    : M JoinCallResponse.t :=
  endpoint
    (do agent_role <-
       (match role with
        | Some value =>
            if truthy value
            then do r <- AgentRole_of_value value; ret (Some r)
            else ret None
        | None => ret None
        end);
     do token <- join_participant session_id identity agent_role;
     ret (JoinCallResponse.mk token (settings_livekit_url env) ("call_" +:+ session_id))).

(** [POST /api/calls/{session_id}/transfer]. *)
Definition initiate_transfer (session_id : string) (transfer_request : TransferRequest.t)
    : M InitiateTransferResponse.t :=
  endpoint
    (do agent_a <- get_agent (TransferRequest.agent_a_identity transfer_request);
     match agent_a with
     | None => raise (HTTPException 404 "Agent A not found")
     | Some _ =>
         do agent_b <- get_agent (TransferRequest.agent_b_identity transfer_request);
         do agent_b_identity <-
           (match agent_b with
            | Some _ => ret (TransferRequest.agent_b_identity transfer_request)
            | None =>
                do agent_b <- get_available_agent_b None;
                match agent_b with
                | None => raise (HTTPException 503 "No Agent B available")
                | Some agent_b => ret (Agent.identity agent_b)
                end
            end);
         do transfer_room_sid <-
           AgentA_initiate_transfer (TransferRequest.agent_a_identity transfer_request)
             agent_b_identity
             (or_default (TransferRequest.reason transfer_request) "Customer transfer request");
         if truthy_opt transfer_room_sid then
           do tokens <- get_transfer_room_tokens session_id;
           ret (InitiateTransferResponse.mk (default "" transfer_room_sid) tokens
                  agent_b_identity)
         else raise (HTTPException 500 "Failed to initiate transfer")
     end).

(** [POST /api/calls/{session_id}/explain]. *)
Definition explain_transfer (session_id agent_a_identity agent_b_identity : string)
    : M ExplainTransferResponse.t :=
  endpoint
    (do agent_a <- get_agent agent_a_identity;
     do agent_b <- get_agent agent_b_identity;
     match agent_a, agent_b with
     | Some _, Some _ =>
         do explanation <- AgentA_explain_transfer_to_agent_b agent_a_identity agent_b_identity;
         if truthy_opt explanation then
           do agent_a_now <- deref agent_a_identity;
           let call_summary := generate_call_summary agent_a_now in
           do_ AgentB_receive_transfer_context agent_b_identity (default "" explanation)
                 (or_default call_summary "");
           ret (ExplainTransferResponse.mk (default "" explanation) call_summary)
         else raise (HTTPException 500 "Failed to generate explanation")
     | _, _ => raise (HTTPException 404 "Agent not found")
     end).

(** [POST /api/calls/{session_id}/complete]. *)
Definition complete_transfer (session_id agent_a_identity : string)
    : M CompleteTransferResponse.t :=
  endpoint
    (do agent_a <- get_agent agent_a_identity;
     match agent_a with
     | None => raise (HTTPException 404 "Agent A not found")
     | Some _ =>
         do success <- AgentA_complete_transfer agent_a_identity;
         if success then
           do final_room_sid <- livekit_complete_transfer session_id;
           ret (CompleteTransferResponse.mk true final_room_sid
                  "Transfer completed successfully")
         else raise (HTTPException 500 "Failed to complete transfer")
     end).

End WithEnv.

(* ===================================================================== *)
(** ** Requests and method calls as data *)
(* ===================================================================== *)

(** The operations that reach the orchestration from outside: the five
    call-management endpoints, [LiveKitService.end_session] and
    [AgentB.end_call]. *)
Inductive Request :=
| CreateCall (caller_identity : string) (agent_a_identity : option string)
| JoinCall (session_id identity : string) (role : option string)
| InitiateTransfer (session_id : string) (transfer_request : TransferRequest.t)
| ExplainTransfer (session_id agent_a_identity agent_b_identity : string)
| CompleteTransfer (session_id agent_a_identity : string)
| EndSession (session_id : string)
| EndCall (agent_b_identity : string).

(** The world after a request, whether it returned or raised. *)
Definition serve (env : Env) (r : Request) (w : World) : World :=
  match r with
  | CreateCall caller_identity agent_a_identity =>
      snd (create_call env caller_identity agent_a_identity w)
  | JoinCall session_id identity role => snd (join_call env session_id identity role w)
  | InitiateTransfer session_id transfer_request =>
      snd (initiate_transfer env session_id transfer_request w)
  | ExplainTransfer session_id agent_a_identity agent_b_identity =>
      snd (explain_transfer env session_id agent_a_identity agent_b_identity w)
  | CompleteTransfer session_id agent_a_identity =>
      snd (complete_transfer env session_id agent_a_identity w)
  | EndSession session_id => snd (end_session session_id w)
  | EndCall agent_b_identity => snd (AgentB_end_call env agent_b_identity w)
  end.

(** The state of a session as an observer sees it. *)
Definition observe (session_id : string) (w : World) : option CallState :=
  CallSession.state <$> active_sessions w !! session_id.

(** The states observed before the first request and after each one. *)
Fixpoint observed_states (session_id : string) (rs : list (Env * Request)) (w : World)
    : list (option CallState) :=
  observe session_id w ::
  match rs with
  | [] => []
  | (env, r) :: rest => observed_states session_id rest (serve env r w)
  end.

(** The methods of an agent object. *)
Inductive AgentCall :=
| Call_add_to_conversation (speaker content : string)
| Call_handle_incoming_call (session_id : string)
| Call_process_conversation (message speaker : string)
| Call_initiate_transfer (agent_b_identity reason : string)
| Call_explain_transfer_to_agent_b (agent_b_identity : string)
| Call_complete_transfer
| Call_receive_transfer_context (explanation call_summary : string)
| Call_end_call.

(** The world after [self.method(...)], whether it returned or raised. *)
Definition call (env : Env) (self : string) (c : AgentCall) (w : World) : World :=
  match c with
  | Call_add_to_conversation speaker content =>
      snd (update_self self (add_to_conversation env speaker content) w)
  | Call_handle_incoming_call session_id => snd (handle_incoming_call env self session_id w)
  | Call_process_conversation message speaker =>
      snd (process_conversation env self message speaker w)
  | Call_initiate_transfer agent_b_identity reason =>
      snd (AgentA_initiate_transfer env self agent_b_identity reason w)
  | Call_explain_transfer_to_agent_b agent_b_identity =>
      snd (AgentA_explain_transfer_to_agent_b env self agent_b_identity w)
  | Call_complete_transfer => snd (AgentA_complete_transfer env self w)
  | Call_receive_transfer_context explanation call_summary =>
      snd (AgentB_receive_transfer_context env self explanation call_summary w)
  | Call_end_call => snd (AgentB_end_call env self w)
  end.

(* ===================================================================== *)
(** ** A concrete deployment, used to run the model *)
(* ===================================================================== *)

Module Demo.
(** Collaborators that all answer. *)
Definition env : Env :=
  mkEnv "2024-01-01T10:00:00" "20240101_100000" "100000" "wss://localhost:7880"
    (fun room_name _ => Some ("RM_" +:+ room_name))
    (fun _ => Some "Customer asks about an invoice.")
    (fun _ _ _ => Some "The customer has a billing question.").

(** The same a few seconds later, with a room service that is down. *)
Definition env_rooms_down : Env :=
  mkEnv "2024-01-01T10:00:07" "20240101_100007" "100007" "wss://localhost:7880"
    (fun _ _ => None)
    (fun _ => Some "Customer asks about an invoice.")
    (fun _ _ _ => Some "The customer has a billing question.").

(** After startup: the four default agents, no session. *)
Definition started : World := snd (create_default_agents empty_world).

Definition s1 : string := "session_20240101_100000_cust1".

(** [cust1] has called; agent [agent_a_001] took the call. *)
Definition created : World := snd (create_call env "cust1" None started).

(** Agent A has joined the room. *)
Definition connected : World := snd (join_call env s1 "agent_a_001" (Some "agent_a") created).

Definition to_billing : TransferRequest.t :=
  TransferRequest.mk s1 "agent_a_001" "agent_b_billing" (Some "billing").

(** Phase 1 done. *)
Definition transferring : World := snd (initiate_transfer env s1 to_billing connected).

(** Phase 2 done. *)
Definition explained : World :=
  snd (explain_transfer env s1 "agent_a_001" "agent_b_billing" transferring).

(** Phase 3 done. *)
Definition completed : World := snd (complete_transfer env s1 "agent_a_001" explained).
End Demo.

(* ===================================================================== *)
(** ** What an operation may do to a session state and to a transcript *)
(* ===================================================================== *)




(* ===================================================================== *)
(** ** main.py: the read-only endpoints *)
(* ===================================================================== *)

(** [Enum.value] of the two enums that [get_status] reports. *)
Definition AgentRole_value (r : AgentRole) : string :=
  match r with AGENT_A => "agent_a" | AGENT_B => "agent_b" end.

Definition AgentState_value (s : AgentState) : string :=
  match s with
  | IDLE => "idle"
  | IN_CALL => "in_call"
  | IN_TRANSFER => "in_transfer"
  | OFFLINE => "offline"
  end.

(** The dict [BaseAgent.get_status] returns. *)
Module AgentStatus.
Record t := mk {
  identity : string;
  name : string;
  role : string;
  state : string;
  current_session : option string;
  conversation_length : nat
}.
End AgentStatus.

(** [BaseAgent.get_status]. *)
Definition get_status (a : Agent.t) : AgentStatus.t :=
  AgentStatus.mk (Agent.identity a) (Agent.name a) (AgentRole_value (Agent.role a))
    (AgentState_value (Agent.state a)) (Agent.current_session_id a)
    (length (Agent.conversation_history a)).

(** [AgentManager.list_agents]. *)
Definition list_agents : M (list AgentStatus.t) :=
  gets (fun w => List.map get_status (od_values (agents w))).

(** [GET /api/calls/{session_id}]; the model returns the session rather
    than [session.dict()]. *)
Definition get_call_info (session_id : string) : M CallSession.t :=
  endpoint
    (do session <- get_session session_id;
     match session with
     | None => raise (HTTPException 404 "Session not found")
     | Some session => ret session
     end).

(** [GET /api/agents/{identity}]: no [try] around this one. *)
Definition get_agent_status (identity : string) : M AgentStatus.t :=
  do agent <- get_agent identity;
  match agent with
  | None => raise (HTTPException 404 "Agent not found")
  | Some agent => ret (get_status agent)
  end.

(* ===================================================================== *)
(** ** services/twilio_service.py: TwiML, and the webhook of main.py *)
(* ===================================================================== *)

(** The document a [VoiceResponse] holds; [str(response)], the XML text
    the twilio library makes of it, is not modelled. *)
Module TwiML.
Inductive noun :=
| Conference (name : string) (start_conference_on_enter end_conference_on_exit : option bool)
| Number (phone_number : string).

Inductive verb :=
| Say (message voice : string)
| Dial (nouns : list noun)
| Hangup.
End TwiML.

(** [f"{o}"] for an [Optional[str]]. *)
Definition format_optional (o : option string) : string :=
  match o with Some s => s | None => "None" end.

(** [if explanation_text: response.say(explanation_text, voice='alice')]. *)
Definition say_explanation (explanation_text : option string) : list TwiML.verb :=
  match explanation_text with
  | Some text => if truthy text then [TwiML.Say text "alice"] else []
  | None => []
  end.

(** [TwilioService.generate_connect_twiml]. *)
Definition generate_connect_twiml (session_id agent_identity : string)
    (explanation_text : option string) : list TwiML.verb :=
  say_explanation explanation_text ++
  [TwiML.Dial [TwiML.Conference ("livekit-" +:+ session_id) (Some true) (Some false)]].

(** [TwilioService.generate_transfer_twiml]. *)
Definition generate_transfer_twiml (target_number : string) (explanation_text : option string)
    : list TwiML.verb :=
  say_explanation explanation_text ++ [TwiML.Dial [TwiML.Number target_number]].

(** [TwilioService.generate_webhook_response]. *)
Definition generate_webhook_response (action : string)
    (session_id explanation_text target_number : option string) : list TwiML.verb :=
  if String.eqb action "connect_to_livekit" then
    say_explanation explanation_text ++
    [TwiML.Dial [TwiML.Conference ("livekit-" +:+ format_optional session_id) (Some true) None]]
  else if String.eqb action "transfer" then
    say_explanation explanation_text ++
    (if truthy_opt target_number
     then [TwiML.Dial [TwiML.Number (default "" target_number)]]
     else [])
  else if String.eqb action "hangup" then
    say_explanation explanation_text ++ [TwiML.Hangup]
  else
    [TwiML.Say "Thank you for calling." "alice"; TwiML.Hangup].

(** How the [try] body of [twilio_webhook] ends when nothing of [M] is
    raised: with a response, or at the read of a local variable that no
    assignment has bound. *)
Inductive webhook_body_end :=
| Responded (twiml : list TwiML.verb)
| UnboundLocalError (variable : string).

(** The [try] body of [POST /api/twilio/webhook/{session_id}].
    [explanation_text] is assigned only under
    [if action == "connect_to_livekit"]; every agent object has the
    attribute [current_session_id]. *)
Definition twilio_webhook_body (env : Env) (session_id action : string) : M webhook_body_end :=
  do session <- get_session session_id;
  match session with
  | None => ret (Responded (generate_webhook_response "hangup" None None None))
  | Some session =>
      if String.eqb action "connect_to_livekit" then
        do explanation_text <-
          (if truthy_opt (CallSession.agent_a_identity session) then
             do agent_a <- get_agent (default "" (CallSession.agent_a_identity session));
             match agent_a with
             | Some _ =>
                 AgentA_explain_transfer_to_agent_b env
                   (default "" (CallSession.agent_a_identity session)) "phone_agent"
             | None => ret None
             end
           else ret None);
        ret (Responded (generate_webhook_response action (Some session_id) explanation_text None))
      else ret (UnboundLocalError "explanation_text")
  end.

(** [POST /api/twilio/webhook/{session_id}]: whatever the body raises,
    the answer is the hangup document. *)
Definition twilio_webhook (env : Env) (session_id action : string) : M (list TwiML.verb) :=
  fun w =>
    match twilio_webhook_body env session_id action w with
    | (Ok (Responded twiml), w') => (Ok twiml, w')
    | (Ok (UnboundLocalError _), w') => (Ok (generate_webhook_response "hangup" None None None), w')
    | (Raise _, w') => (Ok (generate_webhook_response "hangup" None None None), w')
    end.

(* ===================================================================== *)
(** ** Invariants of the two stores *)
(* ===================================================================== *)

(** An agent is in a call or in a transfer exactly when it has a current
    session. *)
Definition agent_consistent (a : Agent.t) : Prop :=
  (Agent.state a = IN_CALL \/ Agent.state a = IN_TRANSFER) <->
  is_Some (Agent.current_session_id a).

Definition agents_consistent (w : World) : Prop :=
  forall identity a, od_get identity (agents w) = Some a -> agent_consistent a.



(** [AgentB.specialty], where the object has one. *)
Definition specialty_of (a : Agent.t) : option string :=
  match Agent.kind a with AgentA _ => None | AgentB specialty _ => Some specialty end.

(** [AgentB.transfer_context], where the object has one. *)
Definition transfer_context_of (a : Agent.t) : option TransferContext.t :=
  match Agent.kind a with AgentA _ => None | AgentB _ transfer_context => transfer_context end.

(** What is fixed when an agent object is constructed. *)
Definition same_agent_object (a a' : Agent.t) : Prop :=
  Agent.identity a' = Agent.identity a /\
  Agent.name a' = Agent.name a /\
  Agent.role a' = Agent.role a /\
  specialty_of a' = specialty_of a.

(** What [create_call_session] fixes of a session. *)
Definition same_call (s s' : CallSession.t) : Prop :=
  CallSession.session_id s' = CallSession.session_id s /\
  CallSession.caller_identity s' = CallSession.caller_identity s /\
  CallSession.agent_a_identity s' = CallSession.agent_a_identity s /\
  CallSession.original_room_sid s' = CallSession.original_room_sid s /\
  CallSession.created_at s' = CallSession.created_at s.

(** The capacity a request asks for when it creates a room. *)
Definition room_capacity (r : Request) : Z :=
  match r with
  | CreateCall _ _ => 3
  | _ => 2
  end.

(* ===================================================================== *)
(** ** config.py, the choice of the LLM provider, and the health check *)
(* ===================================================================== *)

(** The fields of [config.Settings] that the services read at start-up. *)
Module Settings.
Record t := mk {
  livekit_api_key : string;
  llm_provider : string;
  openai_api_key : option string;
  groq_api_key : option string;
  openrouter_api_key : option string;
  twilio_account_sid : option string;
  twilio_auth_token : option string
}.
End Settings.

(** The provider classes of [llm_service.py], each built from its key. *)
Inductive LLMProvider :=
| OpenAIProvider (api_key : string)
| GroqProvider (api_key : string)
| OpenRouterProvider (api_key : string).

(** [LLMService._initialize_provider]; [lower] is [str.lower] on ASCII
    letters. *)
Definition initialize_provider (settings : Settings.t) : result LLMProvider :=
  let provider_name := lower (Settings.llm_provider settings) in
  if String.eqb provider_name "openai" && truthy_opt (Settings.openai_api_key settings)
  then Ok (OpenAIProvider (default "" (Settings.openai_api_key settings)))
  else if String.eqb provider_name "groq" && truthy_opt (Settings.groq_api_key settings)
  then Ok (GroqProvider (default "" (Settings.groq_api_key settings)))
  else if String.eqb provider_name "openrouter"
          && truthy_opt (Settings.openrouter_api_key settings)
  then Ok (OpenRouterProvider (default "" (Settings.openrouter_api_key settings)))
  else Raise (ValueError ("No valid LLM provider configured. Provider: " +:+ provider_name)).

(** [TwilioService.is_available] after [TwilioService.__init__]: the
    client exists when both credentials are set. *)
Definition twilio_is_available (settings : Settings.t) : bool :=
  truthy_opt (Settings.twilio_account_sid settings)
  && truthy_opt (Settings.twilio_auth_token settings).

(** The body [GET /health] returns, without the constant status. *)
Module Health.
Record t := mk {
  livekit_configured : bool;
  llm_configured : bool;
  twilio_available : bool
}.
End Health.

(** [health_check]. *)
Definition health_check (settings : Settings.t) : Health.t :=
  Health.mk
    (truthy (Settings.livekit_api_key settings))
    (truthy_opt (Settings.openai_api_key settings)
     || truthy_opt (Settings.groq_api_key settings)
     || truthy_opt (Settings.openrouter_api_key settings))
    (twilio_is_available settings).

(** The name under which a provider is selected, and its key in the
    settings. *)
Definition provider_name_of (p : LLMProvider) : string :=
  match p with
  | OpenAIProvider _ => "openai"
  | GroqProvider _ => "groq"
  | OpenRouterProvider _ => "openrouter"
  end.

Definition provider_key_of (p : LLMProvider) (settings : Settings.t) : option string :=
  match p with
  | OpenAIProvider _ => Settings.openai_api_key settings
  | GroqProvider _ => Settings.groq_api_key settings
  | OpenRouterProvider _ => Settings.openrouter_api_key settings
  end.

Definition provider_api_key (p : LLMProvider) : string :=
  match p with
  | OpenAIProvider k | GroqProvider k | OpenRouterProvider k => k
  end.

(** Further states of the demo deployment. *)
Module MoreDemo.
(** The LLM provider is down. *)
Definition env_llm_down : Env :=
  mkEnv "2024-01-01T10:00:09" "20240101_100009" "100009" "wss://localhost:7880"
    (fun room_name _ => Some ("RM_" +:+ room_name))
    (fun _ => None)
    (fun _ _ _ => None).

(** Groq is selected, in capitals, and only its key is set. *)
Definition groq_settings : Settings.t :=
  Settings.mk "lk_key" "GROQ" None (Some "gsk_1") None None None.

(** After the transfer, agent B has accepted the call. *)
Definition agent_b_on_call : World :=
  call Demo.env "agent_b_billing" (Call_handle_incoming_call Demo.s1) Demo.completed.
End MoreDemo.

(** The happy path of the protocol on the demo deployment. *)
Example demo_happy_path :
  observed_states Demo.s1
    [(Demo.env, JoinCall Demo.s1 "agent_a_001" (Some "agent_a"));
     (Demo.env, InitiateTransfer Demo.s1 Demo.to_billing);
     (Demo.env, ExplainTransfer Demo.s1 "agent_a_001" "agent_b_billing");
     (Demo.env, CompleteTransfer Demo.s1 "agent_a_001")]
    Demo.created
  = [Some WAITING; Some CONNECTED; Some TRANSFERRING; Some TRANSFERRING; Some TRANSFERRED].
Proof. vm_compute. reflexivity. Qed.

(* ===================================================================== *)
(** ** Insertion-ordered dicts *)
(* ===================================================================== *)

Section odict_facts.
Context {V : Type}.
Implicit Types (d : list (string * V)) (k : string) (f : V -> V).

Lemma od_get_alter d k k' f :
  od_get k' (od_alter f k d) = if decide (k = k') then f <$> od_get k' d else od_get k' d.
Proof.
  induction d as [|[k0 v0] d IH]; simpl.
  - by case_decide.
  - repeat (case_decide; simplify_eq; simpl); try done.
Qed.

Lemma od_get_alter_eq d k f : od_get k (od_alter f k d) = f <$> od_get k d.
Proof. rewrite od_get_alter. by case_decide. Qed.

Lemma od_get_alter_ne d k k' f : k <> k' -> od_get k' (od_alter f k d) = od_get k' d.
Proof. intros. rewrite od_get_alter. by case_decide. Qed.

Lemma od_alter_compose d k f g : od_alter g k (od_alter f k d) = od_alter (g ∘ f) k d.
Proof.
  induction d as [|[k0 v0] d IH]; simpl; [done|].
  case_decide; simpl; case_decide; simplify_eq; try done. by rewrite IH.
Qed.

Lemma od_get_set d k k' v :
  od_get k' (od_set k v d) = if decide (k = k') then Some v else od_get k' d.
Proof.
  induction d as [|[k0 v0] d IH]; simpl.
  - repeat (case_decide; simplify_eq); done.
  - repeat (case_decide; simplify_eq; simpl); try done.
Qed.

(** Assigning to a key that is present keeps the order of the keys. *)
Lemma od_set_keys d k v :
  is_Some (od_get k d) -> List.map fst (od_set k v d) = List.map fst d.
Proof.
  induction d as [|[k0 v0] d IH]; simpl.
  - by intros [? ?].
  - case_decide; simplify_eq; simpl; [done|]. intros. by rewrite IH.
Qed.
End odict_facts.

(* ===================================================================== *)
(** ** Running a request symbolically *)
(* ===================================================================== *)

Create HintDb monad.
#[local] Hint Unfold endpoint try_except bind ret raise gets modify get_agent get_session
  deref_AgentA deref_AgentB deref update_self update_session create_room : monad.

(** Case analysis on the innermost scrutinee of a hypothesis. *)
Ltac inner_destruct x :=
  lazymatch x with
  | context [match ?y with _ => _ end] => inner_destruct y
  | _ => destruct x eqn:?
  end.

Ltac break_step :=
  match goal with
  | H : context [match ?x with _ => _ end] |- _ => inner_destruct x
  end.

(** Follows every path of a computation whose outcome is in a hypothesis. *)
Ltac run_monad :=
  repeat autounfold with monad in *; cbn in *;
  repeat (break_step; simplify_eq; cbn in * ); simplify_eq/=.

Ltac session_lookup :=
  repeat match goal with
  | H : context [alter _ _ _ !! _] |- _ => rewrite lookup_alter in H
  | H : context [<[_ := _]> _ !! _] |- _ => rewrite lookup_insert in H
  | |- context [alter _ _ _ !! _] => rewrite lookup_alter
  | |- context [<[_ := _]> _ !! _] => rewrite lookup_insert
  | H : context [decide (?a = ?b)] |- _ => destruct (decide (a = b)); simplify_eq/=
  | |- context [decide (?a = ?b)] => destruct (decide (a = b)); simplify_eq/=
  | H : ?m !! ?k = Some _ |- context [?m !! ?k] => rewrite H; simpl
  | H : ?m !! ?k = Some _ , H' : context [?m !! ?k] |- _ => rewrite H in H'; simplify_eq/=
  | H : bool_decide _ = true |- _ => apply bool_decide_eq_true in H
  | H : _ && _ = true |- _ => apply andb_true_iff in H as [? ?]
  end.

Ltac agent_lookup :=
  repeat match goal with
  | H : context [od_get _ (od_alter _ _ _)] |- _ => rewrite od_get_alter in H
  | |- context [od_get _ (od_alter _ _ _)] => rewrite od_get_alter
  | H : context [decide (?a = ?b)] |- _ => destruct (decide (a = b)); simplify_eq/=
  | |- context [decide (?a = ?b)] => destruct (decide (a = b)); simplify_eq/=
  | H : od_get ?k ?m = Some _ |- context [od_get ?k ?m] => rewrite H; simpl
  | H : od_get ?k ?m = Some _ , H' : context [od_get ?k ?m] |- _ =>
      rewrite H in H'; simplify_eq/=
  end.

(* ===================================================================== *)
(** ** Credentials *)
(* ===================================================================== *)



(* ===================================================================== *)
(** ** Agent selection *)
(* ===================================================================== *)







(* ===================================================================== *)
(** ** Ending a session *)
(* ===================================================================== *)

(** C10: ending a session that is not in the store returns normally and
    changes nothing, neither a session nor an agent. *)
Theorem end_session_unknown_is_noop :
  forall (session_id : string) (w : World),
    active_sessions w !! session_id = None ->
    end_session session_id w = (Ok tt, w).
Proof.
  intros session_id w Hnone. unfold end_session, bind, gets. by rewrite Hnone.
Qed.

Lemma end_session_unknown_is_noop_witness :
  active_sessions Demo.created !! "session_unknown" = None /\
  end_session "session_unknown" Demo.created = (Ok tt, Demo.created).
Proof.
  split; [reflexivity|].
  apply (end_session_unknown_is_noop "session_unknown" Demo.created). reflexivity.
Defined.

(* ===================================================================== *)
(** ** Truthiness *)
(* ===================================================================== *)

Lemma truthy_ne s : s <> "" -> truthy s = true.
Proof. unfold truthy. intros H. by destruct (String.eqb_spec s ""). Qed.

Lemma truthy_opt_Some o : truthy_opt o = true -> exists s, o = Some s /\ s <> "".
Proof.
  destruct o as [s|]; [|done]. simpl. intros H. exists s. split; [done|]. by intros ->.
Qed.

(* ===================================================================== *)
(** ** Phase 1: initiating a transfer *)
(* ===================================================================== *)

(** Phase 1 on a session in whatever state, asked of the agent A whose
    current session it is, with agent B registered and the room service
    answering. *)
Lemma initiate_transfer_runs env session_id request_session_id agent_a_identity
    agent_b_identity reason w a s room_sid :
  od_get agent_a_identity (agents w) = Some a ->
  is_AgentA a = true ->
  Agent.current_session_id a = Some session_id ->
  session_id <> "" ->
  is_Some (od_get agent_b_identity (agents w)) ->
  active_sessions w !! session_id = Some s ->
  room_service_create_room env ("transfer_" +:+ session_id +:+ "_" +:+ now_time env) 2
    = Some room_sid ->
  room_sid <> "" ->
  exists resp w' s' a',
    initiate_transfer env session_id
      (TransferRequest.mk request_session_id agent_a_identity agent_b_identity reason) w
      = (Ok resp, w') /\
    InitiateTransferResponse.transfer_room_sid resp = room_sid /\
    InitiateTransferResponse.agent_b_identity resp = agent_b_identity /\
    rooms w' =
      rooms w ++ [Room.mk ("transfer_" +:+ session_id +:+ "_" +:+ now_time env) 2 room_sid] /\
    active_sessions w' !! session_id = Some s' /\
    CallSession.state s' = TRANSFERRING /\
    CallSession.agent_b_identity s' = Some agent_b_identity /\
    CallSession.transfer_reason s' = Some (or_default reason "Customer transfer request") /\
    CallSession.transfer_room_sid s' = Some room_sid /\
    od_get agent_a_identity (agents w') = Some a' /\
    Agent.state a' = IN_TRANSFER /\
    Agent.current_session_id a' = Some session_id /\
    (TransferInfo.agent_b_identity <$> transfer_requests_of a' !! session_id)
      = Some agent_b_identity.
Proof.
  intros Ha HA Hcur Hsid [b Hb] Hs Hroom Hroom_sid.
  apply truthy_ne in Hsid, Hroom_sid.
  unfold initiate_transfer, AgentA_initiate_transfer, initiate_warm_transfer,
    get_transfer_room_tokens.
  repeat autounfold with monad. cbn.
  rewrite Ha, Hb. cbn. rewrite Ha, HA, Hcur, Hsid. cbn. rewrite Hs. cbn.
  rewrite Hroom. cbn. rewrite Hroom_sid. cbn.
  rewrite !lookup_alter_eq, Hs. cbn. rewrite Hroom_sid.
  assert (exists transfer_requests, Agent.kind a = AgentA transfer_requests) as [tr Hkind].
  { unfold is_AgentA in HA. destruct (Agent.kind a); [by eexists|done]. }
  eexists _, _, _, _. split; [reflexivity|]. cbn.
  rewrite !lookup_alter_eq, Hs, !od_get_alter_eq, Ha. cbn.
  unfold transfer_requests_of, store_transfer_request. cbn. rewrite Hkind.
  do 9 (split; [reflexivity|]). split; [reflexivity|]. split; [exact Hcur|].
  cbn [Agent.kind Agent.set_kind]. by rewrite lookup_insert_eq.
Qed.




(** C3, evaluated where it fails.  The demo session is CONNECTED and
    agent A is IN_CALL; the room service is down.  The request raises
    and agent A is back to IN_CALL with no transfer request stored and no
    room created, but the session keeps what [initiate_warm_transfer]
    assigned before it asked for the room: state TRANSFERRING, agent_b and
    transfer_reason. *)
Theorem initiate_transfer_room_failure_keeps_session_changes :
  observe Demo.s1 Demo.connected = Some CONNECTED /\
  (Agent.state <$> od_get "agent_a_001" (agents Demo.connected)) = Some IN_CALL /\
  fst (initiate_transfer Demo.env_rooms_down Demo.s1 Demo.to_billing Demo.connected)
    = Raise (HTTPExceptionStr 500 (HTTPException 500 "Failed to initiate transfer")) /\
  (Agent.state <$>
   od_get "agent_a_001"
     (agents (snd (initiate_transfer Demo.env_rooms_down Demo.s1 Demo.to_billing
                     Demo.connected)))) = Some IN_CALL /\
  rooms (snd (initiate_transfer Demo.env_rooms_down Demo.s1 Demo.to_billing Demo.connected))
    = rooms Demo.connected /\
  observe Demo.s1
    (snd (initiate_transfer Demo.env_rooms_down Demo.s1 Demo.to_billing Demo.connected))
    = Some TRANSFERRING /\
  (CallSession.agent_b_identity <$>
   active_sessions
     (snd (initiate_transfer Demo.env_rooms_down Demo.s1 Demo.to_billing Demo.connected))
     !! Demo.s1) = Some (Some "agent_b_billing") /\
  (CallSession.transfer_reason <$>
   active_sessions
     (snd (initiate_transfer Demo.env_rooms_down Demo.s1 Demo.to_billing Demo.connected))
     !! Demo.s1) = Some (Some "billing") /\
  (CallSession.transfer_room_sid <$>
   active_sessions
     (snd (initiate_transfer Demo.env_rooms_down Demo.s1 Demo.to_billing Demo.connected))
     !! Demo.s1) = Some None.
Proof. repeat split; vm_compute; reflexivity. Qed.

(* ===================================================================== *)
(** ** Phase 2: explaining the transfer *)
(* ===================================================================== *)

(** C4 (as the code has it): after every successful [explain_transfer]
    the explanation is at the end of agent A's transcript, tagged as a
    transfer explanation; agent B holds (explanation, summary) as its
    transfer_context and has the transfer note and its acknowledgment at
    the end of its own transcript; agent B's state and current session
    are what they were, it is not moved to IN_CALL. *)
Theorem explain_transfer_success :
  forall env session_id agent_a_identity agent_b_identity w resp w',
    explain_transfer env session_id agent_a_identity agent_b_identity w = (Ok resp, w') ->
    exists a a' b b' specialty,
      od_get agent_a_identity (agents w) = Some a /\
      od_get agent_b_identity (agents w) = Some b /\
      od_get agent_a_identity (agents w') = Some a' /\
      od_get agent_b_identity (agents w') = Some b' /\
      Agent.conversation_history a' =
        Agent.conversation_history a ++
        [Message.mk "Agent A"
           ("[Transfer explanation to " +:+ agent_b_identity +:+ "]: "
              +:+ ExplainTransferResponse.explanation resp)
           (now_isoformat env)] /\
      Agent.kind b' =
        AgentB specialty
          (Some (TransferContext.mk (ExplainTransferResponse.explanation resp)
                   (or_default (ExplainTransferResponse.call_summary resp) "")
                   (now_isoformat env))) /\
      Agent.conversation_history b' =
        Agent.conversation_history b ++
        [Message.mk "Agent A" ("[Transfer]: " +:+ ExplainTransferResponse.explanation resp)
           (now_isoformat env);
         Message.mk "Agent B" (acknowledgment (Agent.name b) specialty) (now_isoformat env)] /\
      Agent.state b' = Agent.state b /\
      Agent.current_session_id b' = Agent.current_session_id b.
Proof.
  intros env session_id agent_a_identity agent_b_identity w resp w' H.
  unfold explain_transfer, AgentA_explain_transfer_to_agent_b,
    AgentB_receive_transfer_context in H.
  run_monad.
  - exfalso.
    match goal with
    | HB : is_AgentB ?x = true, HK : Agent.kind ?x = AgentA _ |- _ =>
        unfold is_AgentB in HB; by rewrite HK in HB
    end.
  - match goal with
    | Ha : od_get agent_a_identity (agents w) = Some ?a,
      Hb : od_get agent_b_identity (agents w) = Some ?b,
      Ha' : od_get agent_a_identity (od_alter _ _ _) = Some _,
      Hb' : od_get agent_b_identity (od_alter _ _ _) = Some _ |- _ =>
        rewrite od_get_alter in Ha', Hb';
        destruct (decide (agent_a_identity = agent_b_identity)) as [Heq|Hne];
          [ exfalso; rewrite Heq in *; rewrite Hb in Hb'; rewrite Ha in Hb; simplify_eq/=;
            unfold is_AgentA, is_AgentB in *; simpl in *; by destruct (Agent.kind b)
          | rewrite decide_True in Ha' by done; rewrite Ha in Ha'; rewrite Hb in Hb';
            simplify_eq/=;
            eexists a, _, _, _, specialty;
            split; [done|]; split; [done|];
            split; [rewrite !(od_get_alter_ne _ agent_b_identity) by done;
                    by rewrite od_get_alter_eq, Ha|];
            split; [by rewrite !od_get_alter_eq, od_get_alter_ne, Hb by done|] ]
    end.
    unfold add_to_conversation. simpl. rewrite <- app_assoc. done.
Qed.

Lemma explain_transfer_success_witness :
  (exists resp w',
      explain_transfer Demo.env Demo.s1 "agent_a_001" "agent_b_billing" Demo.transferring
      = (Ok resp, w')) /\
  exists b b',
    od_get "agent_b_billing" (agents Demo.transferring) = Some b /\
    od_get "agent_b_billing" (agents Demo.explained) = Some b' /\
    length (Agent.conversation_history b') = (length (Agent.conversation_history b) + 2)%nat /\
    Agent.state b' = Agent.state b.
Proof.
  split; [eexists _, _; vm_compute; reflexivity|].
  destruct (explain_transfer_success Demo.env Demo.s1 "agent_a_001" "agent_b_billing"
              Demo.transferring
              (ExplainTransferResponse.mk "The customer has a billing question."
                 (Some "Customer asks about an invoice."))
              Demo.explained)
    as (a & a' & b & b' & specialty & Ha & Hb & Ha' & Hb' & Hha & Hkind & Hhb & Hstate & Hcur).
  { vm_compute. reflexivity. }
  exists b, b'. split; [exact Hb|]. split; [exact Hb'|]. split; [|exact Hstate].
  rewrite Hhb, length_app. reflexivity.
Defined.

(** C4 fails as stated: in the demo, agent B is IDLE before phase 2,
    phase 2 returns normally, and agent B is still IDLE, not IN_CALL,
    with its transfer_context set. *)
Lemma explain_transfer_leaves_agent_b_idle :
  (Agent.state <$> od_get "agent_b_billing" (agents Demo.transferring)) = Some IDLE /\
  fst (explain_transfer Demo.env Demo.s1 "agent_a_001" "agent_b_billing" Demo.transferring)
    = Ok (ExplainTransferResponse.mk "The customer has a billing question."
            (Some "Customer asks about an invoice.")) /\
  (Agent.state <$>
   od_get "agent_b_billing"
     (agents (snd (explain_transfer Demo.env Demo.s1 "agent_a_001" "agent_b_billing"
                     Demo.transferring)))) = Some IDLE /\
  (Agent.kind <$>
   od_get "agent_b_billing"
     (agents (snd (explain_transfer Demo.env Demo.s1 "agent_a_001" "agent_b_billing"
                     Demo.transferring))))
    = Some (AgentB "Billing"
              (Some (TransferContext.mk "The customer has a billing question."
                       "Customer asks about an invoice." "2024-01-01T10:00:00"))).
Proof. repeat split; vm_compute; reflexivity. Qed.

(* ===================================================================== *)
(** ** Phase 3: completing the transfer *)
(* ===================================================================== *)

(** What a successful [complete_transfer] has done. *)
Lemma complete_transfer_runs env session_id agent_a_identity w resp w' :
  complete_transfer env session_id agent_a_identity w = (Ok resp, w') ->
  exists a a' s s' agent_b,
    od_get agent_a_identity (agents w) = Some a /\
    od_get agent_a_identity (agents w') = Some a' /\
    Agent.state a' = IDLE /\
    Agent.current_session_id a' = None /\
    transfer_requests_of a' = transfer_requests_of a /\
    active_sessions w !! session_id = Some s /\
    active_sessions w' !! session_id = Some s' /\
    CallSession.state s' = TRANSFERRED /\
    CallSession.agent_b_identity s = Some agent_b /\
    agent_b <> "" /\
    CallSession.agent_b_identity s' = Some agent_b.
Proof.
  intros H.
  unfold complete_transfer, AgentA_complete_transfer, livekit_complete_transfer in H.
  run_monad;
    match goal with
    | Hb : truthy_opt _ = true |- _ => apply truthy_opt_Some in Hb as (agent_b & Hb & Hne)
    end;
    match goal with
    | Ha : od_get agent_a_identity (agents w) = Some ?a |- _ =>
        exists a, (Agent.set_current_session_id None (Agent.set_state IDLE a));
        rewrite !od_get_alter_eq, Ha
    end.
  - match goal with
    | Hs1 : alter ?f ?k _ !! session_id = Some ?s1, Hs0 : active_sessions w !! ?k = Some ?s0
      |- _ =>
        rewrite lookup_alter in Hs1; destruct (decide (k = session_id)); simplify_eq;
        [ rewrite Hs0 in Hs1; simplify_eq/=;
          exists s0, (CallSession.set_state TRANSFERRED (f s0)), agent_b;
          rewrite !lookup_alter_eq, Hs0
        | exists s1, (CallSession.set_state TRANSFERRED s1), agent_b;
          rewrite !lookup_alter_eq, lookup_alter_ne, Hs1 by done ]
    end; done.
  - match goal with
    | Hs : active_sessions w !! session_id = Some ?s0 |- _ =>
        exists s0, (CallSession.set_state TRANSFERRED s0), agent_b;
        rewrite !lookup_alter_eq, Hs
    end. done.
Qed.




(** Phase 1 followed by phase 3 on what phase 1 left: the session ends
    with the agent B that was passed to phase 1, and the transfer record
    naming that agent is still there. *)
Lemma complete_after_initiate env1 env3 session_id request_session_id agent_a_identity
    agent_b_identity reason w a s room_sid resp3 w3 :
  od_get agent_a_identity (agents w) = Some a ->
  is_AgentA a = true ->
  Agent.current_session_id a = Some session_id ->
  session_id <> "" ->
  is_Some (od_get agent_b_identity (agents w)) ->
  active_sessions w !! session_id = Some s ->
  room_service_create_room env1 ("transfer_" +:+ session_id +:+ "_" +:+ now_time env1) 2
    = Some room_sid ->
  room_sid <> "" ->
  complete_transfer env3 session_id agent_a_identity
    (snd (initiate_transfer env1 session_id
            (TransferRequest.mk request_session_id agent_a_identity agent_b_identity reason) w))
    = (Ok resp3, w3) ->
  exists a3 s3,
    od_get agent_a_identity (agents w3) = Some a3 /\
    Agent.state a3 = IDLE /\
    Agent.current_session_id a3 = None /\
    (TransferInfo.agent_b_identity <$> transfer_requests_of a3 !! session_id)
      = Some agent_b_identity /\
    active_sessions w3 !! session_id = Some s3 /\
    CallSession.state s3 = TRANSFERRED /\
    CallSession.agent_b_identity s3 = Some agent_b_identity.
Proof.
  intros Ha HA Hcur Hsid Hb Hs Hroom Hroom_sid Hcomplete.
  destruct (initiate_transfer_runs env1 session_id request_session_id agent_a_identity
              agent_b_identity reason w a s room_sid Ha HA Hcur Hsid Hb Hs Hroom Hroom_sid)
    as (resp & w1 & s1 & a1 & Hrun & _ & _ & _ & Hs1 & _ & Hb1 & _ & _ & Ha1 & _ & _ & Hreq).
  rewrite Hrun in Hcomplete. simpl in Hcomplete.
  destruct (complete_transfer_runs _ _ _ _ _ _ Hcomplete)
    as (a2 & a3 & s2 & s3 & agent_b & Ha2 & Ha3 & Hidle & Hnone & Hkeep & Hs2 & Hs3 & Hstate
        & Hb2 & _ & Hb3).
  simplify_eq. exists a3, s3. rewrite Hkeep. repeat split; assumption.
Qed.

(** C1, evaluated where it fails.  In the demo, phase 1 was never run
    for the session: agent A holds no transfer record and the session has
    no agent B.  [complete_transfer] raises, yet agent A has gone from
    IN_CALL to IDLE and has lost its current session; the state of the
    session is what it was. *)
Theorem complete_transfer_without_initiate_resets_agent :
  (transfer_requests_of <$> od_get "agent_a_001" (agents Demo.connected)) = Some ∅ /\
  (Agent.state <$> od_get "agent_a_001" (agents Demo.connected)) = Some IN_CALL /\
  (Agent.current_session_id <$> od_get "agent_a_001" (agents Demo.connected))
    = Some (Some Demo.s1) /\
  observe Demo.s1 Demo.connected = Some CONNECTED /\
  fst (complete_transfer Demo.env Demo.s1 "agent_a_001" Demo.connected)
    = Raise (HTTPExceptionStr 500
               (ValueError "No Agent B assigned for session session_20240101_100000_cust1")) /\
  (Agent.state <$>
   od_get "agent_a_001"
     (agents (snd (complete_transfer Demo.env Demo.s1 "agent_a_001" Demo.connected))))
    = Some IDLE /\
  (Agent.current_session_id <$>
   od_get "agent_a_001"
     (agents (snd (complete_transfer Demo.env Demo.s1 "agent_a_001" Demo.connected))))
    = Some None /\
  observe Demo.s1 (snd (complete_transfer Demo.env Demo.s1 "agent_a_001" Demo.connected))
    = Some CONNECTED.
Proof. repeat split; vm_compute; reflexivity. Qed.

(* ===================================================================== *)
(** ** The states a session goes through *)
(* ===================================================================== *)





(* ===================================================================== *)
(** ** Transcripts *)
(* ===================================================================== *)




(* ===================================================================== *)
(** ** Further properties: the agent registry *)
(* ===================================================================== *)

#[local] Set Warnings "-clear-no-such-hyp".
Lemma od_alter_keys {V} (f : V -> V) k (d : list (string * V)) :
  List.map fst (od_alter f k d) = List.map fst d.
Proof.
  induction d as [|[k0 v0] d IH]; simpl; [done|].
  case_decide; simpl; [done|]. by rewrite IH.
Qed.

Lemma od_set_keys_fresh {V} k (v : V) (d : list (string * V)) :
  od_get k d = None -> od_set k v d = d ++ [(k, v)].
Proof.
  induction d as [|[k0 v0] d IH]; simpl; [done|].
  case_decide; [done|]. intros Hnone. by rewrite IH.
Qed.

(** X1: Registering an agent makes get_agent return it under its identity and
    leaves every other identity, the assignments, the sessions and the rooms
    alone. An identity that is already registered is silently replaced in
    place (same position in the registration order, no conflict error); a new
    identity is appended at the end. *)
Theorem register_agent_lookup :
  forall (a : Agent.t) (w : World),
    exists w',
      register_agent a w = (Ok tt, w') /\
      get_agent (Agent.identity a) w' = (Ok (Some a), w') /\
      (forall identity, identity <> Agent.identity a ->
         get_agent identity w' = (Ok (od_get identity (agents w)), w')) /\
      (is_Some (od_get (Agent.identity a) (agents w)) ->
         List.map fst (agents w') = List.map fst (agents w)) /\
      (od_get (Agent.identity a) (agents w) = None ->
         agents w' = agents w ++ [(Agent.identity a, a)]) /\
      agent_assignments w' = agent_assignments w /\
      active_sessions w' = active_sessions w /\
      rooms w' = rooms w.
Proof.
  intros a w. eexists. split; [reflexivity|]. unfold get_agent, gets. simpl.
  rewrite od_get_set, decide_True by done. split; [done|].
  split. { intros identity Hne. by rewrite od_get_set, decide_False. }
  split. { apply od_set_keys. }
  split. { apply od_set_keys_fresh. }
  done.
Qed.

Ltac unfold_requests H :=
  unfold create_call, create_call_session, handle_incoming_call, assign_agent_to_session,
    get_available_agent_a, join_call, join_participant, AgentRole_of_value,
    initiate_transfer, AgentA_initiate_transfer, initiate_warm_transfer,
    get_transfer_room_tokens, get_available_agent_b,
    explain_transfer, AgentA_explain_transfer_to_agent_b, AgentB_receive_transfer_context,
    complete_transfer, AgentA_complete_transfer, livekit_complete_transfer,
    AgentB_end_call, end_session in H.

(** Case analysis on the request served, with the outcome of the request
    in a hypothesis and every path followed. *)
Ltac serve_cases r :=
  destruct r; simpl;
  match goal with
  | |- context [snd (?f ?w)] =>
      let H := fresh "Hrun" in
      destruct (f w) as [? ?] eqn:H; simpl in *; unfold_requests H
  end.

Lemma serve_keeps_registry env r w :
  List.map fst (agents (serve env r w)) = List.map fst (agents w).
Proof.
  serve_cases r; run_monad; rewrite ?od_alter_keys; done.
Qed.

Lemma same_agent_object_refl a : same_agent_object a a.
Proof. by unfold same_agent_object. Qed.

(** X2: No request (create, join, initiate, explain, complete, end session,
    end call) adds, removes or reorders registered agents, and every agent
    keeps its identity, name, role and specialty. *)
Theorem serve_keeps_agent_objects :
  forall env r w identity a,
    od_get identity (agents w) = Some a ->
    List.map fst (agents (serve env r w)) = List.map fst (agents w) /\
    exists a',
      od_get identity (agents (serve env r w)) = Some a' /\
      same_agent_object a a'.
Proof.
  intros env r w identity a Ha. split; [apply serve_keeps_registry|].
  serve_cases r; run_monad; agent_lookup;
    (eexists; split; [done|]);
    destruct a as [? ? ? ? ? [?|? ?]]; cbn in *; simplify_eq/=; try done.
Qed.

Ltac unfold_calls H :=
  unfold handle_incoming_call, process_conversation, AgentA_process_conversation,
    AgentB_process_conversation, AgentA_initiate_transfer, initiate_warm_transfer,
    AgentA_explain_transfer_to_agent_b, AgentA_complete_transfer,
    AgentB_receive_transfer_context, AgentB_end_call, end_session in H.

Ltac call_cases c :=
  destruct c; simpl;
  try match goal with
  | |- context [snd (?f ?w)] =>
      let H := fresh "Hrun" in
      destruct (f w) as [? ?] eqn:H; simpl in *; unfold_calls H
  end.

Ltac use_agent_invariant Hinv :=
  repeat match goal with
  | H : _ <$> ?o = Some _ |- _ => destruct o eqn:?; simplify_eq/=
  end;
  repeat match goal with
  | H : od_get ?k (agents ?w) = Some ?x |- _ =>
      lazymatch goal with
      | _ : agent_consistent x |- _ => fail
      | _ => pose proof (Hinv k x H)
      end
  end.

Ltac solve_agent_consistent :=
  unfold agent_consistent, is_Some, store_transfer_request in *;
  repeat match goal with
  | x : Agent.t |- _ => destruct x as [? ? ? ? ? [?|? ?]]
  end; cbn in *; simplify_eq/=; naive_solver.

(** X3: If every registered agent is IN_CALL or IN_TRANSFER exactly when it
    has a current session, this still holds after any request and after any
    method call on any agent. *)
Theorem agent_invariant_preserved :
  forall env w,
    agents_consistent w ->
    (forall r, agents_consistent (serve env r w)) /\
    (forall self c, agents_consistent (call env self c w)).
Proof.
  intros env w Hinv. split.
  - intros r identity a' Ha'. revert Ha'.
    serve_cases r; run_monad; intros Ha'; agent_lookup; use_agent_invariant Hinv;
      solve_agent_consistent.
  - intros self c identity a' Ha'. revert Ha'.
    call_cases c; run_monad; intros Ha'; agent_lookup; use_agent_invariant Hinv;
      solve_agent_consistent.
Qed.

(* ===================================================================== *)
(** ** Further properties: creating and joining a call *)
(* ===================================================================== *)

(** X4: After assign_agent_to_session(session, identity) with a non-empty
    identity of a registered agent, get_session_agent(session) returns that
    agent, and the answer for every other session is unchanged. *)
Theorem get_session_agent_after_assign :
  forall session_id identity w a,
    identity <> "" ->
    od_get identity (agents w) = Some a ->
    get_session_agent session_id (snd (assign_agent_to_session session_id identity w))
    = (Ok (Some a), snd (assign_agent_to_session session_id identity w)) /\
    forall other,
      other <> session_id ->
      fst (get_session_agent other (snd (assign_agent_to_session session_id identity w)))
      = fst (get_session_agent other w).
Proof.
  intros session_id identity w a Hne Ha. apply truthy_ne in Hne.
  unfold get_session_agent, assign_agent_to_session. repeat autounfold with monad. simpl.
  rewrite lookup_insert_eq, Hne. cbn. rewrite Ha. split; [done|].
  intros other Hother. rewrite lookup_insert_ne by done.
  destruct (agent_assignments w !! other) as [i|]; [|done]. by destruct (truthy i).
Qed.

Lemma truthy_opt_default o : truthy_opt o = true -> o = Some (default "" o).
Proof. by destruct o. Qed.

(** X6: A create_call that fails changes nothing (no session, no assignment,
    no agent touched); it fails only because no agent was named and no agent A
    is idle, or because the room could not be created. *)
Theorem create_call_failure_changes_nothing :
  forall env caller_identity agent_a_identity w e w',
    create_call env caller_identity agent_a_identity w = (Raise e, w') ->
    w' = w /\
    ((truthy_opt agent_a_identity = false /\
      first_agent available_agent_a (agents w) = None /\
      e = HTTPExceptionStr 500 (HTTPException 503 "No Agent A available")) \/
     (room_service_create_room env
        ("call_" +:+ "session_" +:+ now_date_time env +:+ "_" +:+ caller_identity) 3 = None /\
      e = HTTPExceptionStr 500 (UpstreamError "create_room"))).
Proof.
  intros env caller_identity agent_a_identity w e w' H.
  unfold create_call, create_call_session, handle_incoming_call, assign_agent_to_session,
    get_available_agent_a in H.
  run_monad; split; try done; auto.
Qed.

(** X5: A successful create_call creates one room 'call_<id>' of capacity 3,
    stores a fresh WAITING session under 'session_<timestamp>_<caller>'
    (replacing whatever session had that id), records the assignment, and puts
    the chosen agent, if registered, IN_CALL on that session whatever its
    state was; an agent A restarts its transcript with the greeting. The agent
    is the one named in the request, or else the first idle agent A. *)
Theorem create_call_success :
  forall env caller_identity agent_a_identity w resp w',
    create_call env caller_identity agent_a_identity w = (Ok resp, w') ->
    exists room_sid,
      CreateCallResponse.session_id resp
        = "session_" +:+ now_date_time env +:+ "_" +:+ caller_identity /\
      rooms w' =
        rooms w ++ [Room.mk ("call_" +:+ CreateCallResponse.session_id resp) 3 room_sid] /\
      active_sessions w' =
        <[CreateCallResponse.session_id resp :=
            CallSession.mk (CreateCallResponse.session_id resp) caller_identity
              (Some (CreateCallResponse.agent_a_identity resp)) None room_sid None WAITING
              None None (now_isoformat env) []]> (active_sessions w) /\
      agent_assignments w' =
        <[CreateCallResponse.session_id resp := CreateCallResponse.agent_a_identity resp]>
          (agent_assignments w) /\
      (if truthy_opt agent_a_identity
       then agent_a_identity = Some (CreateCallResponse.agent_a_identity resp)
       else exists a,
           first_agent available_agent_a (agents w) = Some a /\
           Agent.identity a = CreateCallResponse.agent_a_identity resp) /\
      (forall identity,
          identity <> CreateCallResponse.agent_a_identity resp ->
          od_get identity (agents w') = od_get identity (agents w)) /\
      match od_get (CreateCallResponse.agent_a_identity resp) (agents w) with
      | None => agents w' = agents w
      | Some a =>
          exists a',
            od_get (CreateCallResponse.agent_a_identity resp) (agents w') = Some a' /\
            Agent.state a' = IN_CALL /\
            Agent.current_session_id a' = Some (CreateCallResponse.session_id resp) /\
            Agent.conversation_history a' =
              (if is_AgentA a
               then [Message.mk "Agent A" greeting (now_isoformat env)]
               else Agent.conversation_history a)
      end.
Proof.
  intros env caller_identity agent_a_identity w resp w' H.
  unfold create_call, create_call_session, handle_incoming_call, assign_agent_to_session,
    get_available_agent_a in H.
  run_monad; eexists; (split; [reflexivity|]); (split; [reflexivity|]);
    (split; [reflexivity|]); (split; [reflexivity|]);
    (split; [by eauto using truthy_opt_default|]);
    (split; [intros; by rewrite ?od_get_alter_ne by done|]);
    rewrite ?od_get_alter_eq;
    repeat match goal with
    | H : od_get ?k ?d = _ |- context [od_get ?k ?d] => rewrite H
    end; simpl; try done;
    (eexists; split; [reflexivity|]);
    match goal with |- context [is_AgentA ?x] => destruct (is_AgentA x) end; done.
Qed.

(** The role a [role] query parameter stands for, when it stands for one. *)
Lemma AgentRole_of_value_Ok value r w w' :
  AgentRole_of_value value w = (Ok r, w') ->
  w' = w /\ value = AgentRole_value r.
Proof.
  unfold AgentRole_of_value, ret, raise.
  destruct (String.eqb_spec value "agent_a"); [intros [= <- <-]; by subst|].
  destruct (String.eqb_spec value "agent_b"); [intros [= <- <-]; by subst|]. done.
Qed.

Lemma alter_as_insert {V} (f : V -> V) (k : string) (m : gmap string V) (v : V) :
  m !! k = Some v -> alter f k m = <[k := f v]> m.
Proof.
  intros Hv. apply map_eq. intros j. rewrite lookup_alter, lookup_insert.
  case_decide; [subst; by rewrite Hv|done].
Qed.

Lemma alter_alter_as_insert {V} (f g : V -> V) (k : string) (m : gmap string V) (v : V) :
  m !! k = Some v -> alter f k (alter g k m) = <[k := f (g v)]> m.
Proof.
  intros Hv. apply map_eq. intros j. rewrite !lookup_alter, lookup_insert.
  repeat case_decide; simplify_eq; rewrite ?Hv; done.
Qed.



(* ===================================================================== *)
(** ** Further properties: the session store *)
(* ===================================================================== *)


(** X11: No request removes a session. A session keeps its id, caller, agent
    A, original room and creation time, and its participant list only grows,
    by at most one entry per request; the only exception is a create_call
    whose generated id is the id of the session, which replaces it by a fresh
    WAITING session without participants. *)
Theorem serve_keeps_calls :
  forall env r w session_id s,
    active_sessions w !! session_id = Some s ->
    exists s',
      active_sessions (serve env r w) !! session_id = Some s' /\
      ((same_call s s' /\
        exists joined,
          CallSession.participants s' = CallSession.participants s ++ joined /\
          (length joined <= 1)%nat) \/
       (exists caller_identity agent_a_identity,
           r = CreateCall caller_identity agent_a_identity /\
           session_id = "session_" +:+ now_date_time env +:+ "_" +:+ caller_identity /\
           CallSession.caller_identity s' = caller_identity /\
           CallSession.state s' = WAITING /\
           CallSession.participants s' = [])).
Proof.
  intros env r w session_id s Hs.
  assert (Hsame : same_call s s /\
                  exists joined,
                    CallSession.participants s = CallSession.participants s ++ joined /\
                    (length joined <= 1)%nat).
  { split; [by unfold same_call|]. exists []. rewrite app_nil_r. simpl. split; [done|lia]. }
  serve_cases r; run_monad; session_lookup;
    (eexists; split; [reflexivity|]);
    first [ left; exact Hsame
          | right; eexists _, _; done
          | left; split; [by unfold same_call|];
            first [ eexists [_]; split; [reflexivity|simpl; lia]
                  | exists []; rewrite app_nil_r; split; [reflexivity|simpl; lia] ] ].
Qed.

(** X12: end_session on a stored session sets its state to ENDED and changes
    nothing else (other fields, other sessions, agents, assignments, rooms);
    ending it a second time changes nothing. *)
Theorem end_session_existing :
  forall session_id w s,
    active_sessions w !! session_id = Some s ->
    exists w',
      end_session session_id w = (Ok tt, w') /\
      active_sessions w' = <[session_id := CallSession.set_state ENDED s]> (active_sessions w) /\
      agents w' = agents w /\
      agent_assignments w' = agent_assignments w /\
      rooms w' = rooms w /\
      end_session session_id w' = (Ok tt, w').
Proof.
  intros session_id w s Hs. unfold end_session. repeat autounfold with monad.
  rewrite Hs. eexists. split; [reflexivity|]. cbn.
  split; [apply (alter_as_insert _ _ _ _ Hs)|]. do 3 (split; [done|]).
  rewrite lookup_alter_eq, Hs. cbn. unfold set_active_sessions. cbn. do 2 f_equal.
  rewrite (alter_alter_as_insert _ _ _ _ _ Hs), (alter_as_insert _ _ _ _ Hs). done.
Qed.

(** X13: A request creates at most one room, appended to the rooms created so
    far; the capacity asked for is 3 for create_call and 2 for the transfer
    and final rooms, and the recorded sid is the one the room service
    returned. *)
Theorem serve_rooms :
  forall env r w,
    rooms (serve env r w) = rooms w \/
    exists room,
      rooms (serve env r w) = rooms w ++ [room] /\
      Room.max_participants room = room_capacity r /\
      room_service_create_room env (Room.name room) (room_capacity r) = Some (Room.sid room).
Proof.
  intros env r w.
  serve_cases r; run_monad; first [by left | right; eexists; split; [reflexivity|]; by simpl].
Qed.


(* ===================================================================== *)
(** ** Further properties: the phases of a transfer when they fail *)
(* ===================================================================== *)

(** X16: initiate_transfer fails and changes nothing when agent A is not
    registered, when agent B is not registered and no agent B is idle, or when
    agent A's object is not an AgentA or has no (non-empty) current session. *)
Theorem initiate_transfer_rejected_without_change :
  forall env session_id transfer_request w,
    (od_get (TransferRequest.agent_a_identity transfer_request) (agents w) = None \/
     (od_get (TransferRequest.agent_b_identity transfer_request) (agents w) = None /\
      first_agent (available_agent_b None) (agents w) = None) \/
     (exists a,
         od_get (TransferRequest.agent_a_identity transfer_request) (agents w) = Some a /\
         (is_AgentA a = false \/ truthy_opt (Agent.current_session_id a) = false))) ->
    exists e, initiate_transfer env session_id transfer_request w = (Raise e, w).
Proof.
  intros env session_id transfer_request w Hcase.
  destruct (initiate_transfer env session_id transfer_request w) as [r w'] eqn:H.
  unfold initiate_transfer, AgentA_initiate_transfer, initiate_warm_transfer,
    get_transfer_room_tokens, get_available_agent_b in H.
  run_monad; try (by eexists);
    exfalso; destruct Hcase as [?|[[? ?]|(a & ? & [?|Hcur])]]; simplify_eq/=;
    try congruence;
    match goal with
    | Hc : Agent.current_session_id _ = Some _ |- _ =>
        rewrite Hc in Hcur; simpl in Hcur; congruence
    end.
Qed.





(** X18: An explain_transfer that fails delivers nothing: sessions,
    assignments and rooms are unchanged, every agent keeps its class
    attributes (transfer requests, transfer_context), state and current
    session, and every agent other than agent A is unchanged altogether (agent
    A may have had the explanation appended to its transcript). *)
Theorem explain_transfer_failure_delivers_nothing :
  forall env session_id agent_a_identity agent_b_identity w e w',
    explain_transfer env session_id agent_a_identity agent_b_identity w = (Raise e, w') ->
    active_sessions w' = active_sessions w /\
    agent_assignments w' = agent_assignments w /\
    rooms w' = rooms w /\
    forall identity a,
      od_get identity (agents w) = Some a ->
      exists a',
        od_get identity (agents w') = Some a' /\
        Agent.kind a' = Agent.kind a /\
        Agent.state a' = Agent.state a /\
        Agent.current_session_id a' = Agent.current_session_id a /\
        (identity <> agent_a_identity -> a' = a).
Proof.
  intros env session_id agent_a_identity agent_b_identity w e w' H.
  unfold explain_transfer, AgentA_explain_transfer_to_agent_b,
    AgentB_receive_transfer_context in H.
  run_monad; (do 3 (split; [done|])); intros identity a Ha; agent_lookup;
    try (eexists; split; [done|]; done).
  all: exfalso;
    repeat match goal with
    | H : is_AgentB _ = _ |- _ => unfold is_AgentB in H
    | H : Agent.kind ?x = _, H' : context [Agent.kind ?x] |- _ => rewrite H in H'
    end; done.
Qed.

(** X19: When the LLM cannot produce a transfer explanation, explain_transfer
    fails and changes nothing at all: there is no fallback text, agent A's
    transcript is untouched and agent B receives no transfer_context. *)
Theorem explain_transfer_without_explanation_changes_nothing :
  forall env session_id agent_a_identity agent_b_identity w,
    (forall call_summary reason context,
        llm_generate_transfer_explanation env call_summary reason context = None) ->
    exists e,
      explain_transfer env session_id agent_a_identity agent_b_identity w = (Raise e, w).
Proof.
  intros env session_id agent_a_identity agent_b_identity w Hllm.
  destruct (explain_transfer env session_id agent_a_identity agent_b_identity w)
    as [r w'] eqn:H.
  unfold explain_transfer, AgentA_explain_transfer_to_agent_b,
    AgentB_receive_transfer_context in H.
  run_monad; try (by eexists);
    match goal with
    | H : llm_generate_transfer_explanation _ _ _ _ = Some _ |- _ => by rewrite Hllm in H
    end.
Qed.

(** X20: When agent A holds no transfer record for its current session (or has
    no current session), explain_transfer fails and changes nothing. *)
Theorem explain_transfer_without_record_changes_nothing :
  forall env session_id agent_a_identity agent_b_identity w a,
    od_get agent_a_identity (agents w) = Some a ->
    (forall current_session_id,
        Agent.current_session_id a = Some current_session_id ->
        transfer_requests_of a !! current_session_id = None) ->
    exists e,
      explain_transfer env session_id agent_a_identity agent_b_identity w = (Raise e, w).
Proof.
  intros env session_id agent_a_identity agent_b_identity w a Ha Hnone.
  destruct (explain_transfer env session_id agent_a_identity agent_b_identity w)
    as [r w'] eqn:H.
  unfold explain_transfer, AgentA_explain_transfer_to_agent_b,
    AgentB_receive_transfer_context in H.
  run_monad; try (by eexists);
    match goal with
    | Hc : Agent.current_session_id _ = Some _, Hr : transfer_requests_of _ !! _ = Some _ |- _ =>
        first [by rewrite (Hnone _ Hc) in Hr | by rewrite (Hnone _ eq_refl) in Hr]
    end.
Qed.



(** X23: AgentB.end_call returns False and changes nothing when the agent has
    no (non-empty) current session. Otherwise it returns True: that session,
    if stored, is ENDED and no other session changes state, and the agent is
    IDLE without current session and without transfer_context, with its
    transcript, identity, name and specialty kept. *)
Theorem end_call_outcome :
  forall env self w ended w',
    AgentB_end_call env self w = (Ok ended, w') ->
    exists a,
      od_get self (agents w) = Some a /\
      if ended
      then
        exists current_session_id a',
          Agent.current_session_id a = Some current_session_id /\
          current_session_id <> "" /\
          observe current_session_id w'
            = (fun _ => ENDED) <$> observe current_session_id w /\
          (forall key, key <> current_session_id -> observe key w' = observe key w) /\
          od_get self (agents w') = Some a' /\
          Agent.state a' = IDLE /\
          Agent.current_session_id a' = None /\
          transfer_context_of a' = None /\
          Agent.conversation_history a' = Agent.conversation_history a /\
          same_agent_object a a'
      else
        truthy_opt (Agent.current_session_id a) = false /\ w' = w.
Proof.
  intros env self w ended w' H. unfold AgentB_end_call, end_session in H.
  run_monad;
    try (exfalso;
         match goal with
         | HB : is_AgentB ?x = true, HK : Agent.kind ?x = AgentA _ |- _ =>
             unfold is_AgentB in HB; by rewrite HK in HB
         end);
    (eexists; split; [reflexivity|]); try done;
    match goal with
    | Ht : truthy_opt _ = true |- _ => apply truthy_opt_Some in Ht as (sid & Hcur & Hne)
    end;
    exists sid; eexists; rewrite !od_get_alter_eq;
    repeat match goal with
    | H : od_get _ _ = Some _ |- _ => rewrite H
    end; rewrite Hcur in *; cbn in *;
    (split; [reflexivity|]); (split; [done|]);
    unfold observe; cbn; rewrite ?lookup_alter_eq;
    repeat match goal with
    | H : active_sessions _ !! _ = _ |- _ => rewrite H
    end; cbn;
    (split; [reflexivity|]);
    (split; [intros; by rewrite ?lookup_alter_ne by done|]);
    (split; [reflexivity|]);
    unfold same_agent_object, transfer_context_of, specialty_of, Agent.role; cbn;
    match goal with
    | H : Agent.kind _ = _ |- _ => rewrite H
    end; done.
Qed.

(** X24: process_conversation appends exactly two entries to the agent's
    transcript, the incoming message under the given speaker and then the
    agent's own non-empty response (speaker 'Agent A' or 'Agent B' by class),
    returns that response, and changes neither the agent's state, current
    session or class attributes nor any session or room. *)
Theorem process_conversation_outcome :
  forall env self message speaker w r w',
    process_conversation env self message speaker w = (Ok r, w') ->
    exists a a' response,
      od_get self (agents w) = Some a /\
      r = Some response /\
      response <> "" /\
      od_get self (agents w') = Some a' /\
      Agent.conversation_history a' =
        Agent.conversation_history a ++
        [Message.mk speaker message (now_isoformat env);
         Message.mk (if is_AgentA a then "Agent A" else "Agent B") response
           (now_isoformat env)] /\
      Agent.state a' = Agent.state a /\
      Agent.current_session_id a' = Agent.current_session_id a /\
      Agent.kind a' = Agent.kind a /\
      active_sessions w' = active_sessions w /\
      rooms w' = rooms w.
Proof.
  intros env self message speaker w r w' H.
  unfold process_conversation, AgentA_process_conversation, AgentB_process_conversation in H.
  run_monad;
    match goal with
    | Ha : od_get self (agents w) = Some ?a |- _ =>
        exists a; eexists; eexists; rewrite od_get_alter_eq, Ha; cbn;
        split; [reflexivity|]; split; [reflexivity|];
        split; [repeat match goal with |- context [if ?c then _ else _] => destruct c end;
                discriminate|];
        split; [reflexivity|]; cbn; rewrite <- app_assoc; cbn;
        unfold is_AgentA;
        match goal with H : Agent.kind a = _ |- _ => rewrite H end; done
    end.
Qed.

(* ===================================================================== *)
(** ** Further properties: the endpoints and the telephony webhook *)
(* ===================================================================== *)

(** X9: AgentRole(value) decodes exactly the values of the enum: decoding the
    value of a role gives the role back, a successful decode of a string means
    the string is that role's value, and any other string raises ValueError
    without a state change. *)
Theorem AgentRole_value_round_trip :
  forall r value w,
    AgentRole_of_value (AgentRole_value r) w = (Ok r, w) /\
    (AgentRole_value r <> "") /\
    (forall r' w', AgentRole_of_value value w = (Ok r', w') -> value = AgentRole_value r') /\
    (value <> "agent_a" -> value <> "agent_b" ->
     exists message, AgentRole_of_value value w = (Raise (ValueError message), w)).
Proof.
  intros r value w. split; [by destruct r|]. split; [by destruct r|].
  split; [intros r' w' H; by apply AgentRole_of_value_Ok in H as [_ ->]|].
  intros Ha Hb. unfold AgentRole_of_value.
  apply String.eqb_neq in Ha, Hb. rewrite Ha, Hb. by eexists.
Qed.

(** X25: Every failure of the five call-management endpoints reaches the
    client as HTTP 500: the 404 and 503 raised inside their try blocks are
    caught by the endpoint's own except clause and re-raised as 500 (e.g.
    get_call_info on an unknown session, complete_transfer for an unknown
    agent). get_agent_status, which has no try block, does answer 404 for an
    unknown agent. *)
Theorem endpoint_errors_are_500 :
  forall env w,
    (forall caller_identity agent_a_identity e w',
        create_call env caller_identity agent_a_identity w = (Raise e, w') ->
        exists cause, e = HTTPExceptionStr 500 cause) /\
    (forall session_id identity role e w',
        join_call env session_id identity role w = (Raise e, w') ->
        exists cause, e = HTTPExceptionStr 500 cause) /\
    (forall session_id transfer_request e w',
        initiate_transfer env session_id transfer_request w = (Raise e, w') ->
        exists cause, e = HTTPExceptionStr 500 cause) /\
    (forall session_id agent_a_identity agent_b_identity e w',
        explain_transfer env session_id agent_a_identity agent_b_identity w = (Raise e, w') ->
        exists cause, e = HTTPExceptionStr 500 cause) /\
    (forall session_id agent_a_identity e w',
        complete_transfer env session_id agent_a_identity w = (Raise e, w') ->
        exists cause, e = HTTPExceptionStr 500 cause) /\
    (forall session_id,
        active_sessions w !! session_id = None ->
        get_call_info session_id w
        = (Raise (HTTPExceptionStr 500 (HTTPException 404 "Session not found")), w)) /\
    (forall agent_a_identity session_id,
        od_get agent_a_identity (agents w) = None ->
        complete_transfer env session_id agent_a_identity w
        = (Raise (HTTPExceptionStr 500 (HTTPException 404 "Agent A not found")), w)) /\
    (forall identity,
        od_get identity (agents w) = None ->
        get_agent_status identity w = (Raise (HTTPException 404 "Agent not found"), w)).
Proof.
  intros env w.
  assert (Hframe : forall A (body : M A) e w',
             endpoint body w = (Raise e, w') -> exists cause, e = HTTPExceptionStr 500 cause).
  { intros A body e w'. unfold endpoint, try_except, raise.
    destruct (body w) as [[a|e0] w0]; [done|]. intros [= <- <-]. by eexists. }
  repeat split; try (intros; eapply Hframe; eassumption).
  - intros session_id Hnone. unfold get_call_info. repeat autounfold with monad.
    by rewrite Hnone.
  - intros agent_a_identity session_id Hnone. unfold complete_transfer.
    repeat autounfold with monad. by rewrite Hnone.
  - intros identity Hnone. unfold get_agent_status. repeat autounfold with monad.
    by rewrite Hnone.
Qed.

Lemma od_get_values {V} k (d : list (string * V)) v : od_get k d = Some v -> In v (od_values d).
Proof.
  induction d as [|[k0 v0] d IH]; simpl; [done|].
  case_decide; [intros [= <-]; by left|]. intros. right. by apply IH.
Qed.

(** X26: A status returned by get_agent_status is one of the statuses
    list_agents returns, list_agents returns one status per registered agent,
    and neither changes any state. *)
Theorem agent_status_listed :
  forall identity w status w',
    get_agent_status identity w = (Ok status, w') ->
    w' = w /\
    exists statuses,
      list_agents w = (Ok statuses, w) /\
      length statuses = length (agents w) /\
      In status statuses.
Proof.
  intros identity w status w' H. unfold get_agent_status in H. run_monad.
  split; [done|]. eexists. unfold list_agents, gets. split; [reflexivity|].
  unfold od_values. rewrite !length_map. split; [done|].
  apply in_map. eapply od_get_values. eassumption.
Qed.

(** X27: Every document generate_webhook_response builds is at most one Say
    (voice alice, non-empty text) followed by at most one verb: a Dial of the
    conference 'livekit-<session_id>' for action connect_to_livekit, a Dial of
    the target number for action transfer with a non-empty target, nothing at
    all for transfer without a target (the call is neither transferred nor
    hung up), and a Hangup for every other action. *)
Theorem webhook_response_shape :
  forall action session_id explanation_text target_number,
    exists says tail,
      generate_webhook_response action session_id explanation_text target_number
        = says ++ tail /\
      (says = [] \/ exists message, message <> "" /\ says = [TwiML.Say message "alice"]) /\
      (tail = [TwiML.Hangup] /\ action <> "connect_to_livekit" /\ action <> "transfer" \/
       tail = [TwiML.Dial [TwiML.Conference ("livekit-" +:+ format_optional session_id)
                             (Some true) None]] /\
         action = "connect_to_livekit" \/
       (exists number,
           tail = [TwiML.Dial [TwiML.Number number]] /\ target_number = Some number /\
           number <> "") /\
         action = "transfer" \/
       tail = [] /\ action = "transfer" /\ truthy_opt target_number = false).
Proof.
  intros action session_id explanation_text target_number.
  assert (Hsay : say_explanation explanation_text = [] \/
                 exists message,
                   message <> "" /\
                   say_explanation explanation_text = [TwiML.Say message "alice"]).
  { unfold say_explanation. destruct explanation_text as [text|]; [|by left].
    destruct (truthy text) eqn:Ht; [|by left]. right. exists text. split; [|done].
    intros ->. done. }
  unfold generate_webhook_response.
  destruct (String.eqb_spec action "connect_to_livekit") as [->|Hc].
  { eexists _, _. split; [reflexivity|]. split; [exact Hsay|]. right. left. done. }
  destruct (String.eqb_spec action "transfer") as [->|Ht].
  { eexists _, _. split; [reflexivity|]. split; [exact Hsay|].
    destruct (truthy_opt target_number) eqn:Htarget.
    - right. right. left. apply truthy_opt_Some in Htarget as (n & -> & Hn).
      split; [|done]. by exists n.
    - right. right. right. done. }
  destruct (String.eqb_spec action "hangup") as [->|Hh].
  { eexists _, _. split; [reflexivity|]. split; [exact Hsay|]. left. done. }
  exists [TwiML.Say "Thank you for calling." "alice"], [TwiML.Hangup].
  split; [done|]. split; [right; by exists "Thank you for calling."|]. left. done.
Qed.

(** X28: The telephony webhook answers every action other than
    'connect_to_livekit' with a bare Hangup and no state change, also
    'transfer' and 'hangup' on an existing session: explanation_text is
    assigned only in the connect_to_livekit branch, so reading it raises and
    the except clause answers with the hangup document. *)
Theorem twilio_webhook_other_actions_hang_up :
  forall env session_id action w,
    action <> "connect_to_livekit" ->
    twilio_webhook env session_id action w = (Ok [TwiML.Hangup], w).
Proof.
  intros env session_id action w Hne. apply String.eqb_neq in Hne.
  unfold twilio_webhook, twilio_webhook_body. repeat autounfold with monad.
  destruct (active_sessions w !! session_id); [|done]. by rewrite Hne.
Qed.

(** X29: The telephony webhook never raises and never changes a session, a
    room or the set of registered agents. It answers either with a bare
    Hangup, or, for action connect_to_livekit on a stored session, with an
    optional Say followed by a Dial of the conference 'livekit-<session_id>'. *)
Theorem twilio_webhook_answers :
  forall env session_id action w,
    exists twiml w',
      twilio_webhook env session_id action w = (Ok twiml, w') /\
      active_sessions w' = active_sessions w /\
      rooms w' = rooms w /\
      List.map fst (agents w') = List.map fst (agents w) /\
      (twiml = [TwiML.Hangup] \/
       action = "connect_to_livekit" /\
       is_Some (active_sessions w !! session_id) /\
       exists says,
         twiml = says ++
                 [TwiML.Dial [TwiML.Conference ("livekit-" +:+ session_id) (Some true) None]] /\
         (says = [] \/ exists message, says = [TwiML.Say message "alice"])).
Proof.
  intros env session_id action w.
  destruct (twilio_webhook env session_id action w) as [r w'] eqn:H.
  unfold twilio_webhook in H.
  destruct (twilio_webhook_body env session_id action w) as [rb wb] eqn:Hb.
  unfold twilio_webhook_body, AgentA_explain_transfer_to_agent_b in Hb.
  run_monad;
    repeat match goal with
    | Heq : String.eqb _ _ = true |- _ => apply String.eqb_eq in Heq; subst
    end;
    eexists _, _; (split; [reflexivity|]); cbn; rewrite ?od_alter_keys;
    (do 3 (split; [done|]));
    first [ by left
          | right; split; [done|]; split; [by eexists|];
            unfold say_explanation;
            repeat match goal with
            | |- context [truthy ?x] => destruct (truthy x)
            end;
            first [ exists []; split; [reflexivity|by left]
                  | eexists [_]; split; [reflexivity|right; by eexists] ] ].
Qed.

(** X30: When the LLM service can be initialised, the provider chosen is
    the one the settings name (case-insensitively), it is built from that
    provider's own non-empty key, and the health check reports
    llm_configured. A key of another provider is never used instead: with
    the named provider's key missing, initialisation raises. *)
Theorem initialize_provider_uses_named_key :
  forall settings p,
    initialize_provider settings = Ok p ->
    provider_name_of p = lower (Settings.llm_provider settings) /\
    provider_key_of p settings = Some (provider_api_key p) /\
    provider_api_key p <> "" /\
    Health.llm_configured (health_check settings) = true.
Proof.
  intros settings p. unfold initialize_provider.
  assert (Hkey_of : forall key,
             truthy_opt key = true -> key = Some (default "" key) /\ default "" key <> "").
  { intros key Hkey. apply truthy_opt_Some in Hkey as (k & -> & Hne). done. }
  destruct (String.eqb_spec (lower (Settings.llm_provider settings)) "openai") as [->|_];
    cbn [andb].
  { destruct (truthy_opt (Settings.openai_api_key settings)) eqn:Hkey; [|done].
    intros [= <-]. destruct (Hkey_of _ Hkey). unfold health_check. cbn. by rewrite Hkey. }
  destruct (String.eqb_spec (lower (Settings.llm_provider settings)) "groq") as [->|_];
    cbn [andb].
  { destruct (truthy_opt (Settings.groq_api_key settings)) eqn:Hkey; [|done].
    intros [= <-]. destruct (Hkey_of _ Hkey). unfold health_check. cbn.
    by rewrite Hkey, orb_true_r. }
  destruct (String.eqb_spec (lower (Settings.llm_provider settings)) "openrouter") as [->|_];
    cbn [andb]; [|done].
  destruct (truthy_opt (Settings.openrouter_api_key settings)) eqn:Hkey; [|done].
  intros [= <-]. destruct (Hkey_of _ Hkey). unfold health_check. cbn.
  by rewrite Hkey, !orb_true_r.
Qed.

(* ===================================================================== *)
(** ** Further properties, run on the demo deployment *)
(* ===================================================================== *)

Lemma get_session_agent_after_assign_witness :
  od_get "agent_b_billing" (agents Demo.started)
    = Some (new_AgentB "agent_b_billing" "Mike (Billing)" "Billing") /\
  fst (get_session_agent "s9" (snd (assign_agent_to_session "s9" "agent_b_billing" Demo.started)))
    = Ok (Some (new_AgentB "agent_b_billing" "Mike (Billing)" "Billing")).
Proof.
  split; [vm_compute; reflexivity|].
  destruct (get_session_agent_after_assign "s9" "agent_b_billing" Demo.started
              (new_AgentB "agent_b_billing" "Mike (Billing)" "Billing")) as [Hget _].
  - discriminate.
  - vm_compute. reflexivity.
  - rewrite Hget. reflexivity.
Defined.

Lemma serve_keeps_agent_objects_witness :
  od_get "agent_a_001" (agents Demo.started) = Some (new_AgentA "agent_a_001" "Sarah (Agent A)") /\
  exists a',
    od_get "agent_a_001" (agents (serve Demo.env (CreateCall "cust1" None) Demo.started))
      = Some a' /\
    Agent.name a' = "Sarah (Agent A)".
Proof.
  split; [vm_compute; reflexivity|].
  destruct (serve_keeps_agent_objects Demo.env (CreateCall "cust1" None) Demo.started
              "agent_a_001" (new_AgentA "agent_a_001" "Sarah (Agent A)"))
    as (_ & a' & Ha' & _ & Hname & _).
  - vm_compute. reflexivity.
  - exists a'. split; [exact Ha'|exact Hname].
Defined.

Lemma agent_invariant_preserved_witness :
  agents_consistent Demo.started /\
  agents_consistent (serve Demo.env (CreateCall "cust1" None) Demo.started).
Proof.
  assert (Hstarted : agents_consistent Demo.started).
  { intros identity a. change (agents Demo.started) with
      [("agent_a_001", new_AgentA "agent_a_001" "Sarah (Agent A)");
       ("agent_b_billing", new_AgentB "agent_b_billing" "Mike (Billing)" "Billing");
       ("agent_b_technical", new_AgentB "agent_b_technical" "Lisa (Technical)" "Technical");
       ("agent_b_general", new_AgentB "agent_b_general" "John (General)" "General Support")].
    simpl. repeat case_decide; intros [= <-];
      (split; [intros [[=]|[=]] | intros [x [=]]]). }
  split; [exact Hstarted|].
  apply (proj1 (agent_invariant_preserved Demo.env Demo.started Hstarted)).
Defined.

Lemma create_call_failure_changes_nothing_witness :
  create_call Demo.env_rooms_down "cust2" None Demo.started
    = (Raise (HTTPExceptionStr 500 (UpstreamError "create_room")), Demo.started) /\
  Demo.started = Demo.started.
Proof.
  split; [vm_compute; reflexivity|].
  apply (create_call_failure_changes_nothing Demo.env_rooms_down "cust2" None Demo.started
           (HTTPExceptionStr 500 (UpstreamError "create_room")) Demo.started).
  vm_compute. reflexivity.
Defined.

Lemma create_call_success_witness :
  create_call Demo.env "cust1" None Demo.started
    = (Ok (CreateCallResponse.mk Demo.s1 ("call_" +:+ Demo.s1) "agent_a_001"), Demo.created) /\
  exists room_sid,
    rooms Demo.created = rooms Demo.started ++ [Room.mk ("call_" +:+ Demo.s1) 3 room_sid].
Proof.
  split; [vm_compute; reflexivity|].
  destruct (create_call_success Demo.env "cust1" None Demo.started
              (CreateCallResponse.mk Demo.s1 ("call_" +:+ Demo.s1) "agent_a_001") Demo.created)
    as (room_sid & _ & Hrooms & _).
  - vm_compute. reflexivity.
  - exists room_sid. exact Hrooms.
Defined.




Lemma serve_keeps_calls_witness :
  (exists s, active_sessions Demo.created !! Demo.s1 = Some s) /\
  exists s',
    active_sessions (serve Demo.env (JoinCall Demo.s1 "agent_a_001" (Some "agent_a")) Demo.created)
      !! Demo.s1 = Some s'.
Proof.
  split; [eexists; vm_compute; reflexivity|].
  edestruct (serve_keeps_calls Demo.env (JoinCall Demo.s1 "agent_a_001" (Some "agent_a"))
               Demo.created Demo.s1) as (s' & Hs' & _).
  - vm_compute. reflexivity.
  - exists s'. exact Hs'.
Defined.

Lemma end_session_existing_witness :
  (exists s, active_sessions Demo.connected !! Demo.s1 = Some s) /\
  exists w',
    end_session Demo.s1 Demo.connected = (Ok tt, w') /\
    end_session Demo.s1 w' = (Ok tt, w').
Proof.
  split; [eexists; vm_compute; reflexivity|].
  edestruct (end_session_existing Demo.s1 Demo.connected)
    as (w' & Hend & _ & _ & _ & _ & Hagain).
  - vm_compute. reflexivity.
  - exists w'. split; [exact Hend|exact Hagain].
Defined.


Lemma initiate_transfer_rejected_without_change_witness :
  (exists a,
      od_get "agent_a_001" (agents Demo.completed) = Some a /\
      truthy_opt (Agent.current_session_id a) = false) /\
  exists e, initiate_transfer Demo.env Demo.s1 Demo.to_billing Demo.completed
            = (Raise e, Demo.completed).
Proof.
  split; [eexists; split; vm_compute; reflexivity|].
  apply (initiate_transfer_rejected_without_change Demo.env Demo.s1 Demo.to_billing
           Demo.completed).
  right. right. eexists. split; [vm_compute; reflexivity|]. right. vm_compute. reflexivity.
Defined.



Lemma explain_transfer_failure_delivers_nothing_witness :
  (exists e,
      explain_transfer Demo.env Demo.s1 "agent_a_001" "agent_b_billing" Demo.connected
      = (Raise e, Demo.connected)) /\
  active_sessions Demo.connected = active_sessions Demo.connected.
Proof.
  split; [eexists; vm_compute; reflexivity|].
  eapply (explain_transfer_failure_delivers_nothing Demo.env Demo.s1 "agent_a_001"
            "agent_b_billing" Demo.connected).
  vm_compute. reflexivity.
Defined.

Lemma explain_transfer_without_explanation_changes_nothing_witness :
  (forall call_summary reason context,
      llm_generate_transfer_explanation MoreDemo.env_llm_down call_summary reason context
      = None) /\
  exists e,
    explain_transfer MoreDemo.env_llm_down Demo.s1 "agent_a_001" "agent_b_billing"
      Demo.transferring = (Raise e, Demo.transferring).
Proof.
  split; [reflexivity|].
  apply (explain_transfer_without_explanation_changes_nothing MoreDemo.env_llm_down Demo.s1
           "agent_a_001" "agent_b_billing" Demo.transferring).
  reflexivity.
Defined.

Lemma explain_transfer_without_record_changes_nothing_witness :
  (exists a,
      od_get "agent_a_001" (agents Demo.connected) = Some a /\
      transfer_requests_of a = ∅) /\
  exists e,
    explain_transfer Demo.env Demo.s1 "agent_a_001" "agent_b_billing" Demo.connected
    = (Raise e, Demo.connected).
Proof.
  split; [eexists; split; vm_compute; reflexivity|].
  apply (explain_transfer_without_record_changes_nothing Demo.env Demo.s1 "agent_a_001"
           "agent_b_billing" Demo.connected
           (Agent.mk "agent_a_001" "Sarah (Agent A)" IN_CALL (Some Demo.s1)
              [Message.mk "Agent A" greeting "2024-01-01T10:00:00"] (AgentA ∅))).
  - vm_compute. reflexivity.
  - intros sid _. apply lookup_empty.
Defined.



Lemma end_call_outcome_witness :
  (exists w', AgentB_end_call Demo.env "agent_b_billing" MoreDemo.agent_b_on_call
              = (Ok true, w')) /\
  exists a, od_get "agent_b_billing" (agents MoreDemo.agent_b_on_call) = Some a.
Proof.
  split; [eexists; vm_compute; reflexivity|].
  edestruct (end_call_outcome Demo.env "agent_b_billing" MoreDemo.agent_b_on_call true)
    as (a & Ha & _).
  - vm_compute. reflexivity.
  - exists a. exact Ha.
Defined.

Lemma process_conversation_outcome_witness :
  (exists r w',
      process_conversation Demo.env "agent_a_001" "My PAYMENT failed" "Caller" Demo.connected
      = (Ok r, w')) /\
  exists a a' response,
    od_get "agent_a_001" (agents Demo.connected) = Some a /\
    od_get "agent_a_001"
      (agents (snd (process_conversation Demo.env "agent_a_001" "My PAYMENT failed" "Caller"
                      Demo.connected))) = Some a' /\
    length (Agent.conversation_history a') = (length (Agent.conversation_history a) + 2)%nat /\
    response <> "".
Proof.
  split; [eexists _, _; vm_compute; reflexivity|].
  edestruct (process_conversation_outcome Demo.env "agent_a_001" "My PAYMENT failed" "Caller"
               Demo.connected)
    as (a & a' & response & Ha & _ & Hne & Ha' & Hhist & _).
  - vm_compute. reflexivity.
  - exists a, a', response. split; [exact Ha|]. split; [exact Ha'|].
    split; [|exact Hne]. rewrite Hhist, length_app. reflexivity.
Defined.

Lemma agent_status_listed_witness :
  (exists status,
      get_agent_status "agent_b_general" Demo.connected = (Ok status, Demo.connected)) /\
  exists statuses,
    list_agents Demo.connected = (Ok statuses, Demo.connected) /\
    length statuses = length (agents Demo.connected).
Proof.
  split; [eexists; vm_compute; reflexivity|].
  edestruct (agent_status_listed "agent_b_general" Demo.connected)
    as (_ & statuses & Hlist & Hlen & _).
  - vm_compute. reflexivity.
  - exists statuses. split; [exact Hlist|exact Hlen].
Defined.

Lemma twilio_webhook_other_actions_hang_up_witness :
  "transfer" <> "connect_to_livekit" /\
  twilio_webhook Demo.env Demo.s1 "transfer" Demo.transferring
    = (Ok [TwiML.Hangup], Demo.transferring).
Proof.
  split; [discriminate|].
  apply (twilio_webhook_other_actions_hang_up Demo.env Demo.s1 "transfer" Demo.transferring).
  discriminate.
Defined.

Lemma initialize_provider_uses_named_key_witness :
  initialize_provider MoreDemo.groq_settings = Ok (GroqProvider "gsk_1") /\
  Health.llm_configured (health_check MoreDemo.groq_settings) = true.
Proof.
  split; [reflexivity|].
  apply (initialize_provider_uses_named_key MoreDemo.groq_settings (GroqProvider "gsk_1")).
  reflexivity.
Defined.
